(** * StreamAlert rule processor: the pre-parsers

    A shallow embedding of [stream_alert/rule_processor/pre_parsers.py]
    (class [StreamPreParsers]) together with the parts of the Python 2.7
    standard library its behaviour rests on, and the properties the
    specification states about them.

    Conventions of the embedding.
    - A Python 2 [str] is a list of 8-bit characters, [pystr].  A [unicode]
      object is represented by its UTF-8 encoding, so [s.decode('utf8')]
      is the validity check of the decoder followed by the identity.
    - Python integers are [Z]; [/] on two integers is floor division,
      which is [Z.div] for a positive divisor.
    - An event record is a JSON-like value [pyval].
    - Code with effects runs in the monad [M]: it threads a [world] (local
      files, the remote object store and the calls made to it, the
      candidate names of [tempfile], the log) and may raise an [exn].
    - The generator returned by [read_s3_file] is a state machine
      [gen_state] advanced by [gen_next], one call per [next()];
      [gen_close] is what closing or dropping it does, and [consume] is
      the [for] loop of a consumer.

    What the model leaves out.  Local files are a finite map from paths
    to contents that only this code changes: opening for writing and
    removing always succeed, and a file object reads the contents found
    when it was opened.  The decompressor, the parser of [int] on
    strings, the object store and the temporary directory are parameters
    ([runtime]).  Record fields are byte strings.  Wall-clock time and
    the text of the two diagnostic messages are not represented. *)

From Stdlib Require Import ZArith Ascii String List Lia Bool.
From stdpp Require Import gmap strings list pretty.

Local Open Scope Z_scope.
Local Open Scope list_scope.

(** ** Byte strings *)

Abbreviation pystr := (list ascii).

(** A string literal as a Python [str]. *)
Definition str (s : string) : pystr := list_ascii_of_string s.

(** [ord(c)] and [chr(n)]. *)
Definition ord (c : ascii) : Z := Z.of_N (N_of_ascii c).
Definition chr (n : Z) : ascii := ascii_of_N (Z.to_N n).

(** ** Exceptions *)

Inductive exn :=
| KeyError
| TypeError
| ValueError
| AttributeError
| IOError
| UnicodeDecodeError
| ClientError
| S3ObjectSizeError.

Global Instance exn_eq_dec : EqDecision exn.
Proof. solve_decision. Defined.

(** ** Event records *)

#[local] Unset Elimination Schemes.
Inductive pyval :=
| PyNone
| PyInt (z : Z)
| PyStr (s : pystr)
| PyDict (d : list (pystr * pyval)).
#[local] Set Elimination Schemes.

(** ** Builtins on strings *)

Module Py.

(** [c.isspace()] for an 8-bit character: tab, LF, VT, FF, CR, space. *)
Definition isspace (c : ascii) : bool :=
  let n := ord c in ((9 <=? n) && (n <=? 13)) || (n =? 32).

(** [s.replace(old, new)] where [old] and [new] are one character long:
    every occurrence of [old] becomes [new]. *)
Definition replace (old new : ascii) (s : pystr) : pystr :=
  map (fun c => if Ascii.eqb c old then new else c) s.

(** [s.lstrip()]. *)
Fixpoint lstrip (s : pystr) : pystr :=
  match s with
  | c :: t => if isspace c then lstrip t else s
  | [] => []
  end.

(** [s.rstrip()]: the scan of [do_strip] from the right end, dropping
    characters while they are white space. *)
Definition rstrip (s : pystr) : pystr := rev (lstrip (rev s)).

(** [s.rfind(c)] for a one-character [c]: the highest index, or [-1]. *)
Fixpoint rfind_from (i : Z) (s : pystr) (c : ascii) : Z :=
  match s with
  | [] => -1
  | x :: t =>
      let r := rfind_from (i + 1) t c in
      if 0 <=? r then r else if Ascii.eqb x c then i else -1
  end.
Definition rfind (s : pystr) (c : ascii) : Z := rfind_from 0 s c.

(** Slices [s[:i]] and [s[i:]] for [0 <= i], and the index [s[i]]. *)
Definition slice_to (s : pystr) (i : Z) : pystr := take (Z.to_nat i) s.
Definition slice_from (s : pystr) (i : Z) : pystr := drop (Z.to_nat i) s.
Definition index (s : pystr) (i : Z) : ascii := nth (Z.to_nat i) s "000"%char.

(** [s.split(sep)] for a one-character [sep]; the result is never empty. *)
Fixpoint split (sep : ascii) (s : pystr) : list pystr :=
  match s with
  | [] => [[]]
  | c :: t =>
      let r := split sep t in
      if Ascii.eqb c sep then [] :: r
      else match r with
           | b :: bs => (c :: b) :: bs
           | [] => [[c]]
           end
  end.

(** [s.startswith(c)], [s.endswith(c)] for a one-character [c]. *)
Definition startswith (s : pystr) (c : ascii) : bool :=
  match s with x :: _ => Ascii.eqb x c | [] => false end.
Definition endswith (s : pystr) (c : ascii) : bool :=
  match rev s with x :: _ => Ascii.eqb x c | [] => false end.

(** The lines a file object yields when iterated: the data cut after
    every LF, the LF kept at the end of its line; a last line without LF
    is yielded as it is, and empty data has no line. *)
Fixpoint readlines (data : pystr) : list pystr :=
  match data with
  | [] => []
  | c :: t =>
      if Ascii.eqb c "010" then [c] :: readlines t
      else match readlines t with
           | l :: ls => (c :: l) :: ls
           | [] => [[c]]
           end
  end.

(** [enumerate(l, start)] as a list. *)
Fixpoint enumerate {A} (start : nat) (l : list A) : list (nat * A) :=
  match l with
  | [] => []
  | x :: t => (start, x) :: enumerate (S start) t
  end.

(** Equality test on strings, [a == b]. *)
Definition eqb (a b : pystr) : bool := bool_decide (a = b).

(** [d[k]] on a value: [KeyError] when a dict lacks the key, [TypeError]
    when the value cannot be indexed by a string. *)
Fixpoint assoc (d : list (pystr * pyval)) (k : pystr) : option pyval :=
  match d with
  | [] => None
  | (k', v) :: d' => if eqb k' k then Some v else assoc d' k
  end.

Definition getitem (v : pyval) (k : pystr) : exn + pyval :=
  match v with
  | PyDict d => match assoc d k with Some x => inr x | None => inl KeyError end
  | _ => inl TypeError
  end.

(** [v[k1][k2]...]: the subscriptions from left to right. *)
Fixpoint getpath (v : pyval) (ks : list pystr) : exn + pyval :=
  match ks with
  | [] => inr v
  | k :: ks' =>
      match getitem v k with
      | inr x => getpath x ks'
      | inl e => inl e
      end
  end.

End Py.

(** ** [binascii] and [base64] *)

Module Base64.

(** [table_a2b_base64]: the value of a character of the alphabet, [0]
    for the pad character, [-1] for every other 7-bit character. *)
Definition table_a2b_base64 (c : ascii) : Z :=
  let n := ord c in
  if (65 <=? n) && (n <=? 90) then n - 65
  else if (97 <=? n) && (n <=? 122) then n - 97 + 26
  else if (48 <=? n) && (n <=? 57) then n - 48 + 52
  else if n =? 43 then 62
  else if n =? 47 then 63
  else if n =? 61 then 0
  else -1.

Definition BASE64_PAD : ascii := "="%char.

(** [binascii_find_valid(s, slen, num)]: the [(num+1)]-th character of
    [s] that the table accepts, or [-1]. *)
Fixpoint binascii_find_valid (s : pystr) (num : Z) : Z :=
  match s with
  | [] => -1
  | c :: t =>
      let b64val := table_a2b_base64 (chr (Z.land (ord c) 127)) in
      if (ord c <=? 127) && negb (b64val =? -1) then
        if num =? 0 then ord c else binascii_find_valid t (num - 1)
      else binascii_find_valid t num
  end.

(** The loop of [binascii_a2b_base64] over the input; [bin_data] is the
    output written so far.  It returns the final [leftbits] with the
    output.  A pad that closes a quad ends the input ([break]). *)
Fixpoint a2b_loop (ascii_data : pystr) (leftbits leftchar quad_pos : Z)
    (bin_data : pystr) : Z * pystr :=
  match ascii_data with
  | [] => (leftbits, bin_data)
  | this_ch :: rest =>
      if (127 <? ord this_ch) || Ascii.eqb this_ch "013"
         || Ascii.eqb this_ch "010" || Ascii.eqb this_ch " " then
        a2b_loop rest leftbits leftchar quad_pos bin_data
      else if Ascii.eqb this_ch BASE64_PAD then
        if (quad_pos <? 2)
           || ((quad_pos =? 2)
               && negb (binascii_find_valid ascii_data 1 =? ord BASE64_PAD)) then
          a2b_loop rest leftbits leftchar quad_pos bin_data
        else (0, bin_data)
      else
        let v := table_a2b_base64 this_ch in
        if v =? -1 then a2b_loop rest leftbits leftchar quad_pos bin_data
        else
          let quad_pos := Z.land (quad_pos + 1) 3 in
          let leftchar := Z.lor (Z.shiftl leftchar 6) v in
          let leftbits := leftbits + 6 in
          if 8 <=? leftbits then
            let leftbits := leftbits - 8 in
            a2b_loop rest leftbits
              (Z.land leftchar (Z.shiftl 1 leftbits - 1)) quad_pos
              (bin_data ++ [chr (Z.land (Z.shiftr leftchar leftbits) 255)])
          else a2b_loop rest leftbits leftchar quad_pos bin_data
  end.

(** A character that enters the quad: 7-bit, not CR, LF or space, not
    the pad, and known to the table (the tests of the loop body, in
    their order). *)
Definition in_alphabet (c : ascii) : bool :=
  negb ((127 <? ord c) || Ascii.eqb c "013" || Ascii.eqb c "010" || Ascii.eqb c " ")
  && negb (Ascii.eqb c BASE64_PAD)
  && negb (table_a2b_base64 c =? -1).

(** [binascii.a2b_base64(s)]: [None] stands for [binascii.Error]
    ("Incorrect padding"). *)
Definition a2b_base64 (s : pystr) : option pystr :=
  let '(leftbits, bin_data) := a2b_loop s 0 0 0 [] in
  if leftbits =? 0 then Some bin_data else None.

(** [base64.b64decode(s)]: [binascii.Error] is re-raised as [TypeError];
    a value that is not a string is a [TypeError] too. *)
Definition b64decode (v : pyval) : exn + pystr :=
  match v with
  | PyStr s => match a2b_base64 s with Some b => inr b | None => inl TypeError end
  | _ => inl TypeError
  end.

(** The encoder of RFC 4648, section 4, which the specification calls
    [base64(...)]: three bytes give four characters of the alphabet, a
    last group of one or two bytes is padded with [=]. *)
Definition table_b2a_base64 (i : Z) : ascii :=
  if i <? 26 then chr (i + 65)
  else if i <? 52 then chr (i - 26 + 97)
  else if i <? 62 then chr (i - 52 + 48)
  else if i =? 62 then "+"%char
  else "/"%char.

(** The four characters for the bytes [a], [b], [c] of a group. *)
Definition enc1 (a : ascii) : ascii :=
  table_b2a_base64 (Z.shiftr (ord a) 2).
Definition enc2 (a b : ascii) : ascii :=
  table_b2a_base64 (Z.lor (Z.shiftl (Z.land (ord a) 3) 4) (Z.shiftr (ord b) 4)).
Definition enc3 (b c : ascii) : ascii :=
  table_b2a_base64 (Z.lor (Z.shiftl (Z.land (ord b) 15) 2) (Z.shiftr (ord c) 6)).
Definition enc4 (c : ascii) : ascii :=
  table_b2a_base64 (Z.land (ord c) 63).

(** A short last group is completed with zero bits. *)
Fixpoint b64encode (bs : pystr) : pystr :=
  match bs with
  | [] => []
  | [a] => [enc1 a; enc2 a "000"; BASE64_PAD; BASE64_PAD]
  | [a; b] => [enc1 a; enc2 a b; enc3 b "000"; BASE64_PAD]
  | a :: b :: c :: rest =>
      enc1 a :: enc2 a b :: enc3 b c :: enc4 c :: b64encode rest
  end.

(** A payload is valid base64 when it is the encoding of some bytes. *)
Definition valid_base64 (s : pystr) : Prop := exists bs, s = b64encode bs.

(** A character the loop passes over without a change of state: one
    above 7 bits, or one the table does not know (CR, LF and the space
    are among these). *)
Definition skipped (c : ascii) : bool :=
  (127 <? ord c) || (table_a2b_base64 c =? -1).

End Base64.

(** ** [urllib.unquote] and the UTF-8 decoder *)

Module Urllib.

(** The value of a hexadecimal digit ([_hexdig]), if it is one. *)
Definition hexval (c : ascii) : option Z :=
  let n := ord c in
  if (48 <=? n) && (n <=? 57) then Some (n - 48)
  else if (65 <=? n) && (n <=? 70) then Some (n - 65 + 10)
  else if (97 <=? n) && (n <=? 102) then Some (n - 97 + 10)
  else None.

(** [_hextochr[item[:2]]]: defined when [item] starts with two
    hexadecimal digits; the rest is [item[2:]]. *)
Definition hextochr (item : pystr) : option (ascii * pystr) :=
  match item with
  | a :: b :: rest =>
      match hexval a, hexval b with
      | Some x, Some y => Some (chr (16 * x + y), rest)
      | _, _ => None
      end
  | _ => None
  end.

(** One turn of the loop over [bits[1:]]: the two appended pieces. *)
Definition unquote_item (item : pystr) : pystr :=
  match hextochr item with
  | Some (c, rest) => c :: rest
  | None => "%"%char :: item
  end.

(** The pieces put back together, each piece after the first through
    [unquote_item]: [''.join(res)]. *)
Definition unquote_bits (bits : list pystr) : pystr :=
  match bits with
  | [] => []
  | b0 :: rest => b0 ++ concat (map unquote_item rest)
  end.

(** [urllib.unquote(s)] on a [str]. *)
Definition unquote (s : pystr) : pystr :=
  let bits := Py.split "%" s in
  if (length bits =? 1)%nat then s else unquote_bits bits.

(** Percent-decoding as the specification words it: every [%XY] with
    two hexadecimal digits is the byte [0xXY], everything else stands
    for itself. *)
Fixpoint url_unescape (s : pystr) : pystr :=
  match s with
  | [] => []
  | c :: t =>
      if Ascii.eqb c "%" then
        match hextochr t with
        | Some (x, _) =>
            x :: match t with
                 | _ :: _ :: rest => url_unescape rest
                 | _ => []
                 end
        | None => c :: url_unescape t
        end
      else c :: url_unescape t
  end.

(** Is [c] a continuation byte, [(c & 0xc0) == 0x80]? *)
Definition is_cont (c : ascii) : bool := Z.land (ord c) 192 =? 128.

(** Acceptance by [PyUnicode_DecodeUTF8] (errors='strict'), following
    [utf8_code_length] and the checks of each case; as in 2.7 the
    surrogate range is not excluded. *)
Fixpoint utf8_valid (s : pystr) : bool :=
  match s with
  | [] => true
  | c0 :: t =>
      let n := ord c0 in
      if n <? 128 then utf8_valid t
      else if n <? 194 then false
      else if n <? 224 then
        match t with
        | c1 :: t1 => is_cont c1 && utf8_valid t1
        | _ => false
        end
      else if n <? 240 then
        match t with
        | c1 :: c2 :: t2 =>
            is_cont c1 && is_cont c2
            && negb ((n =? 224) && (ord c1 <? 160))
            && utf8_valid t2
        | _ => false
        end
      else if n <? 245 then
        match t with
        | c1 :: c2 :: c3 :: t3 =>
            is_cont c1 && is_cont c2 && is_cont c3
            && negb ((n =? 240) && (ord c1 <? 144))
            && negb ((n =? 244) && (143 <? ord c1))
            && utf8_valid t3
        | _ => false
        end
      else false
  end.

(** [s.decode('utf8')]. *)
Definition decode_utf8 (s : pystr) : exn + pystr :=
  if utf8_valid s then inr s else inl UnicodeDecodeError.

End Urllib.

(** ** [os.path] (posixpath) *)

Module OsPath.

(** The [while] loop of [genericpath._splitext] that skips leading
    dots: is there a character other than the dot in
    [p[filenameIndex:dotIndex]]?  [n] counts the remaining turns. *)
Fixpoint skip_leading_dots (n : nat) (p : pystr) (filenameIndex : Z) : bool :=
  match n with
  | O => false
  | S n' =>
      if negb (Ascii.eqb (Py.index p filenameIndex) ".") then true
      else skip_leading_dots n' p (filenameIndex + 1)
  end.

(** [os.path.splitext(p)], with [sep = '/'], [altsep = None],
    [extsep = '.']. *)
Definition splitext (p : pystr) : pystr * pystr :=
  let sepIndex := Py.rfind p "/" in
  let dotIndex := Py.rfind p "." in
  if (sepIndex <? dotIndex)
     && skip_leading_dots (Z.to_nat (dotIndex - (sepIndex + 1))) p (sepIndex + 1)
  then (Py.slice_to p dotIndex, Py.slice_from p dotIndex)
  else (p, []).

(** [os.path.join(a, b)]. *)
Definition join (a b : pystr) : pystr :=
  if Py.startswith b "/" then b
  else if Py.eqb a [] || Py.endswith a "/" then a ++ b
  else a ++ "/"%char :: b.

End OsPath.

(** ** The environment and the world *)

Inductive level := DEBUG | INFO | ERROR.

Record log_record := LogRecord {
  levelname : level;
  msg : pystr;
  args : list pyval
}.

(** What the interpreter and the services around it provide.
    - [int_of_str s] is [int(s)] for a [str]: the value of the literal,
      or [None] for [ValueError];
    - [gunzip data] is what a [GzipFile] over [data] delivers to its
      reader: the decompressed bytes, and [None] when the stream ends
      well or the exception that ends it (for data that is not gzip,
      [IOError] and no byte);
    - [s3_get region bucket key] is the body [download_fileobj] writes,
      or [None] when the client raises;
    - [tmpdir] is [tempfile.gettempdir()], an absolute normalised path,
      so that [os.path.abspath] leaves the generated name as it is;
    - [s3_partial region bucket key] is, for a transfer in which the
      client raises, the part of the body it had streamed into the file
      before (empty when it fails before the first byte). *)
Record runtime := Runtime {
  int_of_str : pystr -> option Z;
  gunzip : pystr -> pystr * option exn;
  s3_get : pyval -> pystr -> pystr -> option pystr;
  tmpdir : pystr;
  s3_partial : pyval -> pystr -> pystr -> pystr
}.

(** The mutable state: local files by path, the calls made to S3, the
    candidate names [tempfile] will draw, the log. *)
Record world := World {
  fs : gmap pystr pystr;
  s3_calls : list (pyval * pystr * pystr);
  names : list pystr;
  logs : list log_record
}.

Definition set_fs (f : gmap pystr pystr) (w : world) : world :=
  World f (s3_calls w) (names w) (logs w).
Definition set_names (n : list pystr) (w : world) : world :=
  World (fs w) (s3_calls w) n (logs w).
Definition add_call (c : pyval * pystr * pystr) (w : world) : world :=
  World (fs w) (s3_calls w ++ [c]) (names w) (logs w).
Definition add_log (r : log_record) (w : world) : world :=
  World (fs w) (s3_calls w) (names w) (logs w ++ [r]).

(** ** The monad of effectful code *)

Definition M (A : Type) : Type := world -> world * (exn + A).

Definition ret {A} (a : A) : M A := fun w => (w, inr a).
Definition raise {A} (e : exn) : M A := fun w => (w, inl e).
Definition lift {A} (r : exn + A) : M A := fun w => (w, r).
Definition bind {A B} (m : M A) (k : A -> M B) : M B :=
  fun w =>
    match m w with
    | (w', inr a) => k a w'
    | (w', inl e) => (w', inl e)
    end.

Notation "'do' x <- m ; k" := (bind m (fun x => k))
  (at level 10, x name, m at level 100, k at level 200,
   format "'[v' 'do'  x  <-  m ; '/' k ']'").
Notation "'do' ' p <- m ; k" := (bind m (fun x => let 'p := x in k))
  (at level 10, p pattern, m at level 100, k at level 200).

(** [LOGGER.debug], [LOGGER.info], [LOGGER.error]. *)
Definition LOGGER (l : level) (m : string) (a : list pyval) : M unit :=
  fun w => (add_log (LogRecord l (str m) a) w, inr tt).

(** [os.path.exists(path)]. *)
Definition path_exists (path : pystr) (w : world) : bool :=
  bool_decide (is_Some (fs w !! path)).

(** ** [tempfile] *)

Module Tempfile.

Definition template : pystr := str "tmp".

(** The characters of a candidate name ([_RandomNameSequence]). *)
Definition characters : pystr :=
  str "abcdefghijklmnopqrstuvwxyzABCDEFGHIJKLMNOPQRSTUVWXYZ0123456789_".

(** The loop of [_mkstemp_inner]: the first candidate whose file does
    not exist yet ([O_CREAT | O_EXCL] succeeds); a name in use
    ([EEXIST]) is skipped. *)
Fixpoint _mkstemp_inner (files : gmap pystr pystr) (dir pre suf : pystr)
    (candidates : list pystr) : option (pystr * list pystr) :=
  match candidates with
  | [] => None
  | name :: rest =>
      let file := OsPath.join dir (pre ++ name ++ suf) in
      match files !! file with
      | None => Some (file, rest)
      | Some _ => _mkstemp_inner files dir pre suf rest
      end
  end.

(** [tempfile.mkstemp(suffix=suffix)]: creates the empty file and
    returns its path; [IOError] when no candidate is usable. *)
Definition mkstemp (rt : runtime) (suffix : pystr) : M pystr :=
  fun w =>
    match _mkstemp_inner (fs w) (tmpdir rt) template suffix (names w) with
    | Some (file, rest) =>
        (set_names rest (set_fs (<[file := []]> (fs w)) w), inr file)
    | None => (set_names [] w, inl IOError)
    end.

End Tempfile.

(** ** [StreamPreParsers] *)

Module StreamPreParsers.

(** [int(v)]. *)
Definition py_int (rt : runtime) (v : pyval) : exn + Z :=
  match v with
  | PyInt z => inr z
  | PyStr s => match int_of_str rt s with Some z => inr z | None => inl ValueError end
  | _ => inl TypeError
  end.

(** ['{}'.format(n)] for an integer. *)
Definition format_int (n : Z) : pystr := str (pretty n).

Definition pre_parse_kinesis (raw_record : pyval) : M pystr :=
  do eventID <- lift (Py.getitem raw_record (str "eventID"));
  do eventSourceARN <- lift (Py.getitem raw_record (str "eventSourceARN"));
  do _ <- LOGGER DEBUG "Pre-parsing record from Kinesis. eventID: %s, eventSourceARN: %s"
            [eventID; eventSourceARN];
  do data <- lift (Py.getpath raw_record [str "kinesis"; str "data"]);
  lift (Base64.b64decode data).

Definition pre_parse_sns (raw_record : pyval) : M pyval :=
  do MessageId <- lift (Py.getpath raw_record [str "Sns"; str "MessageId"]);
  do EventSubscriptionArn <- lift (Py.getitem raw_record (str "EventSubscriptionArn"));
  do _ <- LOGGER DEBUG "Pre-parsing record from SNS. MessageId: %s, EventSubscriptionArn: %s"
            [MessageId; EventSubscriptionArn];
  lift (Py.getpath raw_record [str "Sns"; str "Message"]).

(** The body of [with open(path, 'wb') as data: ...
    client.download_fileobj(bucket, key, data)]: opening truncates the
    file, the call is made, and the body is streamed into the file; when
    the client raises, the file is closed with what had been written. *)
Definition download_fileobj (rt : runtime) (region : pyval) (bucket key : pystr)
    (path : pystr) : M unit :=
  fun w =>
    let w := set_fs (<[path := []]> (fs w)) w in
    let w := add_call (region, bucket, key) w in
    match s3_get rt region bucket key with
    | Some body => (set_fs (<[path := body]> (fs w)) w, inr tt)
    | None =>
        (set_fs (<[path := s3_partial rt region bucket key]> (fs w)) w,
         inl ClientError)
    end.

(** The two diagnostic messages (the listing of [/tmp], the output of
    [df]) and the elapsed time are logged without their text. *)
Definition _download_s3_object (rt : runtime) (region : pyval)
    (bucket key : pystr) (size : Z) : M pystr :=
  let size_kb := size / 1024 in
  let size_mb := size_kb / 1024 in
  if 128 <? size_mb then raise S3ObjectSizeError
  else
    do _ <- LOGGER DEBUG "/tmp directory contents:%s " [];
    do _ <- LOGGER DEBUG "%s" [];
    let display_size :=
      if negb (size_mb =? 0) then format_int size_mb ++ str "MB"
      else format_int size_kb ++ str "KB" in
    do _ <- LOGGER INFO "Starting download from S3: %s/%s [%s]"
              [PyStr bucket; PyStr key; PyStr display_size];
    let suffix := Py.replace "/" "-" key in
    do downloaded_s3_object <- Tempfile.mkstemp rt suffix;
    do _ <- download_fileobj rt region bucket key downloaded_s3_object;
    do _ <- LOGGER INFO "Completed download in %s seconds" [];
    ret downloaded_s3_object.

(** [unquote = lambda data: urllib.unquote(data).decode('utf8')]. *)
Definition unquote (data : pyval) : exn + pystr :=
  match data with
  | PyStr s => Urllib.decode_utf8 (Urllib.unquote s)
  | _ => inl AttributeError
  end.

(** The first statements of [pre_parse_s3]: the reference
    [region, bucket, key, size] read from the record. *)
Definition s3_reference (rt : runtime) (raw_record : pyval)
    : M (pyval * pystr * pystr * Z) :=
  do region <- lift (Py.getitem raw_record (str "awsRegion"));
  do name <- lift (Py.getpath raw_record [str "s3"; str "bucket"; str "name"]);
  do bucket <- lift (unquote name);
  do key_v <- lift (Py.getpath raw_record [str "s3"; str "object"; str "key"]);
  do key <- lift (unquote key_v);
  do size_v <- lift (Py.getpath raw_record [str "s3"; str "object"; str "size"]);
  do size <- lift (py_int rt size_v);
  ret (region, bucket, key, size).

(** The exceptions reading the reference can raise. *)
Definition envelope_errors : list exn :=
  [KeyError; TypeError; ValueError; AttributeError; UnicodeDecodeError].

(** What [pre_parse_s3] does with the reference. *)
Definition materialize (rt : runtime) (ref : pyval * pystr * pystr * Z)
    : M (pystr * Z) :=
  let '(region, bucket, key, size) := ref in
  do _ <- LOGGER DEBUG "Pre-parsing record from S3. Bucket: %s, Key: %s, Size: %d"
            [PyStr bucket; PyStr key; PyInt size];
  do downloaded_s3_object <- _download_s3_object rt region bucket key size;
  ret (downloaded_s3_object, size).

Definition pre_parse_s3 (rt : runtime) (raw_record : pyval) : M (pystr * Z) :=
  do ref <- s3_reference rt raw_record;
  materialize rt ref.

(** *** The generator [read_s3_file] *)

(** What one [next()] gives the consumer. *)
Inductive step_result :=
| Yield (num : nat) (line : pystr)
| StopIteration
| Raise (e : exn).

(** A generator object: created and not started; suspended at a
    [yield] of one of the two loops, holding the file object (the raw
    lines still to come and how the stream ends) and the counter of
    [enumerate]; or finished, by returning or by raising. *)
Inductive gen_state :=
| GenCreated (downloaded_s3_object : pystr)
| GenSuspended (downloaded_s3_object : pystr) (lines : list pystr)
    (failure : option exn) (num : nat)
| GenFinished.

(** Iterating [open(path, 'r')]: the lines of the file. *)
Definition plain_lines (data : pystr) : list pystr * option exn :=
  (Py.readlines data, None).

(** Iterating [gzip.open(path, 'r')]: the lines of the decompressed
    data; when the stream fails, the lines completed before the
    failure, then the exception. *)
Definition gzip_lines (rt : runtime) (data : pystr) : list pystr * option exn :=
  match gunzip rt data with
  | (d, None) => (Py.readlines d, None)
  | (d, Some e) =>
      (filter (fun l => Is_true (Py.endswith l "010")) (Py.readlines d), Some e)
  end.

(** The file object the body iterates over, chosen by the extension
    of the path: [gzip.open] for ['.gz'], [open] otherwise.  Both raise
    [IOError] when the file does not exist, see [gen_next]. *)
Definition open_lines (rt : runtime) (downloaded_s3_object data : pystr)
    : list pystr * option exn :=
  let '(_, extension) := OsPath.splitext downloaded_s3_object in
  if Py.eqb extension (str ".gz") then gzip_lines rt data
  else plain_lines data.

(** The statements after the loops: truncate, remove, verify. *)
Definition cleanup (downloaded_s3_object : pystr) (w : world) : world :=
  let w := set_fs (<[downloaded_s3_object := []]> (fs w)) w in
  let w := set_fs (delete downloaded_s3_object (fs w)) w in
  if negb (path_exists downloaded_s3_object w) then
    add_log (LogRecord DEBUG (str "Removed temp file: %s")
               [PyStr downloaded_s3_object]) w
  else
    add_log (LogRecord ERROR (str "Failed to remove temp file: %s")
               [PyStr downloaded_s3_object]) w.

(** One turn of [for num, line in enumerate(f): yield num, line.rstrip()],
    and what follows the loop when [f] is exhausted. *)
Definition loop_step (path : pystr) (lines : list pystr) (failure : option exn)
    (num : nat) (w : world) : world * step_result * gen_state :=
  match lines with
  | line :: rest => (w, Yield num (Py.rstrip line), GenSuspended path rest failure (S num))
  | [] =>
      match failure with
      | Some e => (w, Raise e, GenFinished)
      | None => (cleanup path w, StopIteration, GenFinished)
      end
  end.

(** [next(g)]. *)
Definition gen_next (rt : runtime) (g : gen_state) (w : world)
    : world * step_result * gen_state :=
  match g with
  | GenFinished => (w, StopIteration, GenFinished)
  | GenSuspended path lines failure num => loop_step path lines failure num w
  | GenCreated path =>
      match fs w !! path with
      | None => (w, Raise IOError, GenFinished)
      | Some data =>
          let '(lines, failure) := open_lines rt path data in
          loop_step path lines failure 0 w
      end
  end.

(** [g.close()], also what happens when a suspended generator is
    dropped: [GeneratorExit] is raised at the [yield], nothing in the
    body handles it, and the generator is finished. *)
Definition gen_close (g : gen_state) (w : world) : world * gen_state :=
  (w, GenFinished).

(** The consumer [for num, line in g: ...]: the pairs received and how
    the loop ended ([None] when [fuel] calls of [next] were not
    enough). *)
Record run := Run {
  final_world : world;
  final_gen : gen_state;
  yielded : list (nat * pystr);
  ending : option step_result
}.

(** How the consumer's loop ends for a file object that ends with
    [failure], and the world it is left with. *)
Definition ending_of (failure : option exn) : step_result :=
  match failure with Some e => Raise e | None => StopIteration end.
Definition world_at_end (path : pystr) (failure : option exn) (w : world) : world :=
  match failure with Some _ => w | None => cleanup path w end.

Fixpoint consume (fuel : nat) (rt : runtime) (g : gen_state) (w : world) : run :=
  match fuel with
  | O => Run w g [] None
  | S fuel' =>
      match gen_next rt g w with
      | (w', Yield num line, g') =>
          let r := consume fuel' rt g' w' in
          Run (final_world r) (final_gen r) ((num, line) :: yielded r) (ending r)
      | (w', r, g') => Run w' g' [] (Some r)
      end
  end.

End StreamPreParsers.

(** ** Notions of the specification *)

Module Spec.

(** The lines of a text, "split by line": the pieces between the LF
    characters, without them; a text that ends in LF has no empty last
    line. *)
Fixpoint split_by_line (data : pystr) : list pystr :=
  match data with
  | [] => []
  | c :: t =>
      if Ascii.eqb c "010" then [] :: split_by_line t
      else match split_by_line t with
           | l :: ls => (c :: l) :: ls
           | [] => [[c]]
           end
  end.

(** A record separator: LF or CR. *)
Definition is_record_separator (c : ascii) : bool :=
  Ascii.eqb c "010" || Ascii.eqb c "013".

Fixpoint lstrip_separators (s : pystr) : pystr :=
  match s with
  | c :: t => if is_record_separator c then lstrip_separators t else s
  | [] => []
  end.

(** A line with only its trailing record separators removed. *)
Definition strip_record_separators (s : pystr) : pystr :=
  rev (lstrip_separators (rev s)).

(** The part of a name from its last dot on, empty when it has no
    dot. *)
Definition last_extension (s : pystr) : pystr :=
  if 0 <=? Py.rfind s "." then Py.slice_from s (Py.rfind s ".") else [].



(** Two worlds that differ at most in the file at [path] and in the
    log. *)
Definition same_but_file (path : pystr) (w w' : world) : Prop :=
  s3_calls w' = s3_calls w
  /\ names w' = names w
  /\ forall p, p <> path -> fs w' !! p = fs w !! p.

End Spec.

(** ** A small environment for running the model

    [demo_runtime] lets the definitions above be evaluated on concrete
    inputs.  Its decompressor only looks at the two-byte magic number
    that [GzipFile._read_gzip_header] checks first: data that does not
    start with [1f 8b] is not a gzipped file ([IOError], no byte
    delivered); what follows the magic number is delivered as it is.  Its
    [int] reads unsigned decimal literals.  Its object store holds one
    object per key, whose body is given. *)

Definition GZIP_MAGIC : pystr := ["031"; "139"]%char.

Definition demo_gunzip (data : pystr) : pystr * option exn :=
  match data with
  | a :: b :: rest =>
      if Py.eqb [a; b] GZIP_MAGIC then (rest, None) else ([], Some IOError)
  | _ => ([], Some IOError)
  end.

Fixpoint demo_digits (acc : Z) (s : pystr) : option Z :=
  match s with
  | [] => Some acc
  | c :: t =>
      if (48 <=? ord c) && (ord c <=? 57) then demo_digits (10 * acc + (ord c - 48)) t
      else None
  end.

Definition demo_int_of_str (s : pystr) : option Z :=
  match s with [] => None | _ => demo_digits 0 s end.

Definition demo_runtime (body : pystr) : runtime :=
  Runtime demo_int_of_str demo_gunzip (fun _ _ _ => Some body) (str "/tmp")
    (fun _ _ _ => []).

(** A decompressor for streams that are cut short: after the magic
    number it delivers what follows and then fails, as [GzipFile] does
    when the data ends before the trailer. *)
Definition demo_cut_gunzip (data : pystr) : pystr * option exn :=
  match data with
  | a :: b :: rest =>
      if Py.eqb [a; b] GZIP_MAGIC then (rest, Some IOError) else ([], Some IOError)
  | _ => ([], Some IOError)
  end.

(** An environment whose gzip streams are cut short and whose object
    store fails after it streamed [part] into the file. *)
Definition demo_failing_runtime (part : pystr) : runtime :=
  Runtime demo_int_of_str demo_cut_gunzip (fun _ _ _ => None) (str "/tmp")
    (fun _ _ _ => part).

(** The text made of the given lines, each ended by LF. *)
Definition demo_text (l : list string) : pystr :=
  concat (map (fun s => str s ++ ["010"%char]) l).

(** A world with the given files, no call made yet, and the given
    candidate names. *)
Definition demo_world (files : list (pystr * pystr)) (candidates : list pystr) : world :=
  World (list_to_map files) [] candidates [].

(** An S3 event record with the given bucket name, key and size. *)
Definition s3_record (name key : pystr) (size : pyval) : pyval :=
  PyDict [(str "awsRegion", PyStr (str "us-east-1"));
          (str "s3", PyDict [(str "bucket", PyDict [(str "name", PyStr name)]);
                             (str "object", PyDict [(str "key", PyStr key);
                                                    (str "size", size)])])].

(** A Kinesis event record with the given payload. *)
Definition kinesis_record (data : pyval) : pyval :=
  PyDict [(str "eventID", PyStr (str "shardId-000:1"));
          (str "eventSourceARN", PyStr (str "arn:aws:kinesis:stream/s"));
          (str "kinesis", PyDict [(str "data", data)])].

(** * Properties *)

Import StreamPreParsers.

(** ** White space and lines *)

Section Lines.

Lemma lstrip_split (s : pystr) :
  exists ws, s = ws ++ Py.lstrip s /\ Forall (fun c => Py.isspace c = true) ws.
Proof.
  induction s as [|c t [ws [E F]]]; simpl.
  - exists []. split; [reflexivity | constructor].
  - destruct (Py.isspace c) eqn:Hc.
    + exists (c :: ws). split; [simpl; congruence | constructor; assumption].
    + exists []. split; [reflexivity | constructor].
Qed.

Lemma lstrip_head (s : pystr) (c : ascii) (t : pystr) :
  Py.lstrip s = c :: t -> Py.isspace c = false.
Proof.
  induction s as [|x s IH]; simpl; [discriminate |].
  destruct (Py.isspace x) eqn:Hx; [exact IH |].
  intros [= <- _]. exact Hx.
Qed.

(** A line is what [rstrip] keeps followed by white space only. *)
Lemma rstrip_split (s : pystr) :
  exists ws, s = Py.rstrip s ++ ws /\ Forall (fun c => Py.isspace c = true) ws.
Proof.
  destruct (lstrip_split (rev s)) as [ws [E F]].
  exists (rev ws). split.
  - unfold Py.rstrip. rewrite <- rev_app_distr, <- E. symmetry. apply rev_involutive.
  - apply Forall_forall. intros c Hc. rewrite Forall_forall in F.
    apply F. apply list_elem_of_In. apply in_rev. apply list_elem_of_In. exact Hc.
Qed.

(** What [rstrip] keeps does not end in white space. *)
Lemma rstrip_last (s : pystr) (c : ascii) :
  last (Py.rstrip s) = Some c -> Py.isspace c = false.
Proof.
  unfold Py.rstrip. destruct (Py.lstrip (rev s)) as [|x t] eqn:E; [discriminate |].
  simpl. rewrite last_snoc. intros [= <-]. eapply lstrip_head; eassumption.
Qed.

Lemma rstrip_snoc (s : pystr) (c : ascii) :
  Py.rstrip (s ++ [c]) = if Py.isspace c then Py.rstrip s else s ++ [c].
Proof.
  unfold Py.rstrip. rewrite rev_app_distr. simpl.
  destruct (Py.isspace c); [reflexivity |].
  simpl. rewrite rev_involutive. reflexivity.
Qed.

Lemma rstrip_cons_LF (s : pystr) :
  Py.rstrip (s ++ ["010"%char]) = Py.rstrip s.
Proof. rewrite rstrip_snoc. reflexivity. Qed.

(** The lines of the file object are the lines of the text, each with
    its LF when it has one. *)
Lemma readlines_split_by_line (data : pystr) :
  Forall2 (fun raw l => raw = l \/ raw = l ++ ["010"%char])
    (Py.readlines data) (Spec.split_by_line data).
Proof.
  induction data as [|c t IH]; simpl; [constructor |].
  destruct (Ascii.eqb c "010") eqn:Hc.
  - apply Ascii.eqb_eq in Hc. subst c. constructor; [right; reflexivity | exact IH].
  - inversion IH as [|raw l raws ls H1 H2 E1 E2]; subst.
    + constructor; [left; reflexivity | constructor].
    + constructor; [| assumption].
      destruct H1 as [-> | ->]; [left | right]; reflexivity.
Qed.

Lemma rstrip_readlines (data : pystr) :
  map Py.rstrip (Py.readlines data) = map Py.rstrip (Spec.split_by_line data).
Proof.
  pose proof (readlines_split_by_line data) as H.
  induction H as [|raw l raws ls H1 H2 IH]; simpl; [reflexivity |].
  f_equal; [| exact IH].
  destruct H1 as [-> | ->]; [reflexivity | apply rstrip_cons_LF].
Qed.

Lemma enumerate_lookup {A} (l : list A) (start i n : nat) (x : A) :
  Py.enumerate start l !! i = Some (n, x) -> n = (start + i)%nat /\ l !! i = Some x.
Proof.
  revert start i. induction l as [|y t IH]; intros start i; simpl; [discriminate |].
  destruct i as [|i]; simpl.
  - intros [= <- <-]. split; [lia | reflexivity].
  - intros H. apply IH in H. destruct H as [-> H]. split; [lia | exact H].
Qed.

Lemma enumerate_length {A} (l : list A) (start : nat) :
  length (Py.enumerate start l) = length l.
Proof. revert start. induction l; intros; simpl; [reflexivity | f_equal; auto]. Qed.

Lemma enumerate_fst {A} (l : list A) (start : nat) :
  map fst (Py.enumerate start l) = seq start (length l).
Proof. revert start. induction l; intros; simpl; [reflexivity | f_equal; auto]. Qed.

End Lines.

(** ** The generator *)

Section Generator.

Variable rt : runtime.

Lemma cleanup_fs (path : pystr) (w : world) :
  fs (cleanup path w) = delete path (fs w).
Proof.
  unfold cleanup. simpl.
  destruct (negb _); simpl; apply delete_insert_eq.
Qed.

Lemma cleanup_removes (path : pystr) (w : world) :
  fs (cleanup path w) !! path = None.
Proof. rewrite cleanup_fs. apply lookup_delete_eq. Qed.

Lemma cleanup_calls (path : pystr) (w : world) :
  s3_calls (cleanup path w) = s3_calls w.
Proof. unfold cleanup. destruct (negb _); reflexivity. Qed.

(** The verification after the removal finds the file gone, and says so
    at debug level. *)
Lemma cleanup_logs (path : pystr) (w : world) :
  logs (cleanup path w)
  = logs w ++ [LogRecord DEBUG (str "Removed temp file: %s") [PyStr path]].
Proof.
  unfold cleanup, path_exists. simpl.
  rewrite delete_insert_eq, lookup_delete_eq.
  rewrite bool_decide_eq_false_2; [reflexivity |].
  intros [x Hx]. discriminate.
Qed.

(** A consumer with enough fuel receives every remaining line, stripped
    and numbered, then the end of the stream. *)
Lemma consume_suspended (path : pystr) (lines : list pystr) (failure : option exn) :
  forall (num fuel : nat) (w : world),
    (length lines < fuel)%nat ->
    consume fuel rt (GenSuspended path lines failure num) w
    = Run (world_at_end path failure w) GenFinished
          (Py.enumerate num (map Py.rstrip lines)) (Some (ending_of failure)).
Proof.
  induction lines as [|l ls IH]; intros num fuel w Hf.
  - destruct fuel as [|fuel]; [simpl in Hf; lia |].
    simpl. destruct failure; reflexivity.
  - destruct fuel as [|fuel]; [simpl in Hf; lia |].
    simpl in Hf. cbn [consume gen_next loop_step].
    rewrite IH by lia. reflexivity.
Qed.

Lemma consume_created (path data : pystr) (lines : list pystr) (failure : option exn)
    (fuel : nat) (w : world) :
  fs w !! path = Some data ->
  open_lines rt path data = (lines, failure) ->
  (length lines < fuel)%nat ->
  consume fuel rt (GenCreated path) w
  = Run (world_at_end path failure w) GenFinished
        (Py.enumerate 0 (map Py.rstrip lines)) (Some (ending_of failure)).
Proof.
  intros Hfs Hopen Hf.
  destruct fuel as [|fuel]; [lia |].
  pose proof (consume_suspended path lines failure 0 (S fuel) w Hf) as H.
  destruct lines as [|l ls].
  - cbn [consume gen_next]. rewrite Hfs, Hopen. simpl. destruct failure; reflexivity.
  - cbn [consume gen_next loop_step] in H |- *. rewrite Hfs, Hopen. exact H.
Qed.

(** A generator over a path without a file raises at its first step. *)
Lemma gen_next_missing (path : pystr) (w : world) :
  fs w !! path = None ->
  gen_next rt (GenCreated path) w = (w, Raise IOError, GenFinished).
Proof. intros H. unfold gen_next. rewrite H. reflexivity. Qed.

End Generator.

(** ** The temporary file after reading (C1, C3, C4) *)

(** C1 (amended).  When the file object ends without an exception, the
    temporary file no longer exists once the line sequence has been fully
    consumed: the consumer's loop ends normally, the generator is
    finished, and the path is absent from the file system. *)
Theorem C1_file_removed_after_complete_read (rt : runtime) (w : world)
    (path data : pystr) (lines : list pystr) (fuel : nat) :
  fs w !! path = Some data ->
  open_lines rt path data = (lines, None) ->
  (length lines < fuel)%nat ->
  let r := consume fuel rt (GenCreated path) w in
  ending r = Some StopIteration
  /\ final_gen r = GenFinished
  /\ fs (final_world r) !! path = None.
Proof.
  intros Hfs Hopen Hfuel r. subst r.
  rewrite (consume_created rt path data lines None fuel w Hfs Hopen Hfuel).
  simpl. repeat split. apply cleanup_removes.
Qed.

Lemma C1_file_removed_after_complete_read_witness :
  let rt := demo_runtime [] in
  let path := str "/tmp/tmpabc123logs-app.log" in
  let w := demo_world [(path, demo_text ["one"; "two"])] [] in
  let r := consume 3 rt (GenCreated path) w in
  ending r = Some StopIteration
  /\ final_gen r = GenFinished
  /\ fs (final_world r) !! path = None.
Proof.
  intros rt path w.
  apply (C1_file_removed_after_complete_read rt w path (demo_text ["one"; "two"])
           (Py.readlines (demo_text ["one"; "two"])) 3).
  - vm_compute. reflexivity.
  - vm_compute. reflexivity.
  - vm_compute. lia.
Defined.

(** C1 as stated fails: a consumer that stops after the first line and
    drops the generator leaves the file in place, and so does a read that
    raises. *)
Lemma C1_file_kept_when_abandoned_or_raising :
  let rt := demo_runtime [] in
  let path := str "/tmp/tmpabc123logs-app.log" in
  let data := demo_text ["one"; "two"] in
  let w := demo_world [(path, data)] [] in
  let '(w1, r1, g1) := gen_next rt (GenCreated path) w in
  let '(w2, g2) := gen_close g1 w1 in
  let gz := str "/tmp/tmpabc123logs-app.gz" in
  let r := consume 3 rt (GenCreated gz) (demo_world [(gz, data)] []) in
  (r1 = Yield 0 (str "one") /\ g2 = GenFinished /\ fs w2 !! path = Some data)
  /\ (ending r = Some (Raise IOError) /\ fs (final_world r) !! gz = Some data).
Proof. vm_compute. repeat split. Qed.

(** C3 (amended).  Once the sequence has been consumed, iterating the same
    generator again yields nothing and raises nothing (every further
    [next] is [StopIteration] and leaves the world as it is), while a new
    generator over the same path raises [IOError] at its first step,
    because the file is gone. *)
Theorem C3_second_iteration_after_consumption (rt : runtime) (w : world)
    (path data : pystr) (lines : list pystr) (fuel : nat) :
  fs w !! path = Some data ->
  open_lines rt path data = (lines, None) ->
  (length lines < fuel)%nat ->
  let r := consume fuel rt (GenCreated path) w in
  (forall fuel', consume (S fuel') rt (final_gen r) (final_world r)
                 = Run (final_world r) GenFinished [] (Some StopIteration))
  /\ gen_next rt (GenCreated path) (final_world r)
     = (final_world r, Raise IOError, GenFinished).
Proof.
  intros Hfs Hopen Hfuel r. subst r.
  rewrite (consume_created rt path data lines None fuel w Hfs Hopen Hfuel).
  simpl. split; [reflexivity |].
  apply gen_next_missing, cleanup_removes.
Qed.

Lemma C3_second_iteration_after_consumption_witness :
  let rt := demo_runtime [] in
  let path := str "/tmp/tmpabc123logs-app.log" in
  let w := demo_world [(path, demo_text ["one"; "two"])] [] in
  let r := consume 3 rt (GenCreated path) w in
  (forall fuel', consume (S fuel') rt (final_gen r) (final_world r)
                 = Run (final_world r) GenFinished [] (Some StopIteration))
  /\ gen_next rt (GenCreated path) (final_world r)
     = (final_world r, Raise IOError, GenFinished).
Proof.
  intros rt path w.
  apply (C3_second_iteration_after_consumption rt w path (demo_text ["one"; "two"])
           (Py.readlines (demo_text ["one"; "two"])) 3).
  - vm_compute. reflexivity.
  - vm_compute. reflexivity.
  - vm_compute. lia.
Defined.

(** C3 as stated fails: the second iteration over a consumed sequence ends
    at once, with no line and no exception. *)
Lemma C3_second_iteration_raises_nothing :
  let rt := demo_runtime [] in
  let path := str "/tmp/tmpabc123logs-app.log" in
  let w := demo_world [(path, demo_text ["one"; "two"])] [] in
  let r := consume 3 rt (GenCreated path) w in
  let r' := consume 3 rt (final_gen r) (final_world r) in
  yielded r = [(0%nat, str "one"); (1%nat, str "two")]
  /\ ending r = Some StopIteration
  /\ yielded r' = []
  /\ ending r' = Some StopIteration
  /\ (forall e, ending r' <> Some (Raise e)).
Proof. vm_compute. repeat split. intros e. discriminate. Qed.

(** C4 (amended).  When the path has the extension [.gz] and the
    decompressor fails on the contents, the consumer receives the lines
    completed before the failure (the lines of the delivered data that
    end in LF, stripped and numbered from 0) and then the decompressor's
    exception; the statements after the loop are not reached, so the
    world is unchanged and the temporary file is still present. *)
Theorem C4_corrupt_gzip_raises_and_keeps_file (rt : runtime) (w : world)
    (path data d : pystr) (e : exn) (fuel : nat) :
  snd (OsPath.splitext path) = str ".gz" ->
  fs w !! path = Some data ->
  gunzip rt data = (d, Some e) ->
  (length (Py.readlines d) < fuel)%nat ->
  let r := consume fuel rt (GenCreated path) w in
  yielded r
  = Py.enumerate 0
      (map Py.rstrip
         (filter (fun l => Is_true (Py.endswith l "010")) (Py.readlines d)))
  /\ ending r = Some (Raise e)
  /\ final_world r = w
  /\ fs (final_world r) !! path = Some data.
Proof.
  intros Hext Hfs Hgz Hfuel r. subst r.
  assert (Hopen : open_lines rt path data
                  = (filter (fun l => Is_true (Py.endswith l "010")) (Py.readlines d), Some e)).
  { unfold open_lines. destruct (OsPath.splitext path) as [root ext]. simpl in Hext. subst ext.
    unfold Py.eqb. rewrite bool_decide_eq_true_2 by reflexivity.
    unfold gzip_lines. rewrite Hgz. reflexivity. }
  rewrite (consume_created rt path data _ (Some e) fuel w Hfs Hopen).
  - simpl. repeat split. exact Hfs.
  - eapply Nat.le_lt_trans; [apply length_filter | exact Hfuel].
Qed.

Lemma C4_corrupt_gzip_raises_and_keeps_file_witness :
  let rt := demo_failing_runtime [] in
  let path := str "/tmp/tmpabc123logs-app.gz" in
  let data := GZIP_MAGIC ++ demo_text ["one "; "two"] ++ str "thr" in
  let w := demo_world [(path, data)] [] in
  let r := consume 4 rt (GenCreated path) w in
  yielded r = [(0%nat, str "one"); (1%nat, str "two")]
  /\ ending r = Some (Raise IOError)
  /\ final_world r = w
  /\ fs (final_world r) !! path = Some data.
Proof.
  intros rt path data w.
  apply (C4_corrupt_gzip_raises_and_keeps_file rt w path data
           (demo_text ["one "; "two"] ++ str "thr") IOError 4).
  - vm_compute. reflexivity.
  - vm_compute. reflexivity.
  - vm_compute. reflexivity.
  - vm_compute. lia.
Defined.

(** C4 as stated fails: after the exception of a corrupted [.gz] object
    reached the consumer, the file is still there with its contents, and
    no cleanup message was logged. *)
Lemma C4_corrupt_gzip_file_not_removed :
  let rt := demo_runtime [] in
  let path := str "/tmp/tmpabc123logs-app.gz" in
  let data := str "this is not gzip data" in
  let r := consume 2 rt (GenCreated path) (demo_world [(path, data)] []) in
  ending r = Some (Raise IOError)
  /\ fs (final_world r) !! path = Some data
  /\ fs (final_world r) !! path <> None
  /\ logs (final_world r) = [].
Proof. vm_compute. repeat split. discriminate. Qed.

(** ** The lines produced (C5, C6) *)

(** C5 (amended).  The [i]-th pair produced carries the index [i]
    (indices start at 0 and grow by one per line), and its line is the
    [i]-th raw line of the file object without its trailing white space:
    the raw line is the produced line followed by white-space characters
    only (tab, LF, VT, FF, CR, space), and the produced line does not end
    in one; everything before is kept as it is. *)
Theorem C5_lines_are_rstripped_and_numbered (rt : runtime) (w : world)
    (path data : pystr) (lines : list pystr) (failure : option exn) (fuel : nat) :
  fs w !! path = Some data ->
  open_lines rt path data = (lines, failure) ->
  (length lines < fuel)%nat ->
  let r := consume fuel rt (GenCreated path) w in
  length (yielded r) = length lines
  /\ forall (i n : nat) (line : pystr),
       yielded r !! i = Some (n, line) ->
       n = i
       /\ exists raw ws,
            lines !! i = Some raw
            /\ raw = line ++ ws
            /\ Forall (fun c => Py.isspace c = true) ws
            /\ (forall c, last line = Some c -> Py.isspace c = false).
Proof.
  intros Hfs Hopen Hfuel r. subst r.
  rewrite (consume_created rt path data lines failure fuel w Hfs Hopen Hfuel).
  simpl. split.
  - rewrite enumerate_length. apply length_map.
  - intros i n line H.
    apply enumerate_lookup in H. destruct H as [-> H]. split; [reflexivity |].
    rewrite list_lookup_fmap in H.
    destruct (lines !! i) as [raw|] eqn:Hraw; [| discriminate].
    simpl in H. injection H as <-.
    destruct (rstrip_split raw) as [ws [E F]].
    exists raw, ws. repeat split; try assumption.
    intros c. apply rstrip_last.
Qed.

Lemma C5_lines_are_rstripped_and_numbered_witness :
  let rt := demo_runtime [] in
  let path := str "/tmp/tmpabc123logs-app.log" in
  let lines := Py.readlines (demo_text ["one "; "two"]) in
  let w := demo_world [(path, demo_text ["one "; "two"])] [] in
  let r := consume 3 rt (GenCreated path) w in
  length (yielded r) = length lines
  /\ forall (i n : nat) (line : pystr),
       yielded r !! i = Some (n, line) ->
       n = i
       /\ exists raw ws,
            lines !! i = Some raw
            /\ raw = line ++ ws
            /\ Forall (fun c => Py.isspace c = true) ws
            /\ (forall c, last line = Some c -> Py.isspace c = false).
Proof.
  intros rt path lines w.
  apply (C5_lines_are_rstripped_and_numbered rt w path (demo_text ["one "; "two"])
           lines None 3).
  - vm_compute. reflexivity.
  - vm_compute. reflexivity.
  - vm_compute. lia.
Defined.

(** C5 as stated fails: a blank before the LF is not a record separator,
    yet it is stripped with it. *)
Lemma C5_trailing_blank_is_stripped :
  let rt := demo_runtime [] in
  let path := str "/tmp/tmpabc123logs-app.log" in
  let raw := str "one " ++ ["010"%char] in
  let r := consume 2 rt (GenCreated path) (demo_world [(path, raw)] []) in
  Py.readlines raw = [raw]
  /\ yielded r = [(0%nat, str "one")]
  /\ Spec.strip_record_separators raw = str "one "
  /\ yielded r <> [(0%nat, Spec.strip_record_separators raw)].
Proof. vm_compute. repeat split. discriminate. Qed.

Lemma readlines_length (data : pystr) :
  length (Py.readlines data) = length (Spec.split_by_line data).
Proof. eapply Forall2_length, readlines_split_by_line. Qed.

(** C6 (amended).  For a plaintext object, and for a gzip-compressed one
    under a path with the extension [.gz] whose decompression gives that
    text, consuming the sequence yields the lines of the text split by
    line, each without its trailing white space, paired with the
    contiguous indices 0..n-1, and then ends normally. *)
Theorem C6_round_trip_up_to_trailing_white_space (rt : runtime) (w : world)
    (path data content : pystr) (fuel : nat) :
  fs w !! path = Some data ->
  (snd (OsPath.splitext path) <> str ".gz" /\ data = content)
  \/ (snd (OsPath.splitext path) = str ".gz" /\ gunzip rt data = (content, None)) ->
  (length (Spec.split_by_line content) < fuel)%nat ->
  let r := consume fuel rt (GenCreated path) w in
  yielded r = Py.enumerate 0 (map Py.rstrip (Spec.split_by_line content))
  /\ map fst (yielded r) = seq 0 (length (Spec.split_by_line content))
  /\ ending r = Some StopIteration.
Proof.
  intros Hfs Hkind Hfuel r. subst r.
  assert (Hopen : open_lines rt path data = (Py.readlines content, None)).
  { unfold open_lines. destruct (OsPath.splitext path) as [root ext]. simpl in Hkind.
    unfold Py.eqb. destruct Hkind as [[Hne ->] | [-> Hgz]].
    - rewrite bool_decide_eq_false_2 by exact Hne. reflexivity.
    - rewrite bool_decide_eq_true_2 by reflexivity.
      unfold gzip_lines. rewrite Hgz. reflexivity. }
  rewrite (consume_created rt path data _ None fuel w Hfs Hopen)
    by (rewrite readlines_length; exact Hfuel).
  simpl. rewrite rstrip_readlines. repeat split.
  rewrite enumerate_fst, length_map. reflexivity.
Qed.

Lemma C6_round_trip_up_to_trailing_white_space_witness :
  let rt := demo_runtime [] in
  let path := str "/tmp/tmpabc123logs-app.gz" in
  let content := demo_text ["one "; "two"] in
  let w := demo_world [(path, GZIP_MAGIC ++ content)] [] in
  let r := consume 3 rt (GenCreated path) w in
  yielded r = Py.enumerate 0 (map Py.rstrip (Spec.split_by_line content))
  /\ map fst (yielded r) = seq 0 (length (Spec.split_by_line content))
  /\ ending r = Some StopIteration.
Proof.
  intros rt path content w.
  apply (C6_round_trip_up_to_trailing_white_space rt w path (GZIP_MAGIC ++ content)
           content 3).
  - vm_compute. reflexivity.
  - right. split; vm_compute; reflexivity.
  - vm_compute. lia.
Defined.

(** C6 as stated fails: a line of the original text that ends in a blank
    does not come back identical. *)
Lemma C6_round_trip_loses_trailing_blank :
  let rt := demo_runtime [] in
  let path := str "/tmp/tmpabc123logs-app.log" in
  let content := demo_text ["one "; "two"] in
  let r := consume 3 rt (GenCreated path) (demo_world [(path, content)] []) in
  Spec.split_by_line content = [str "one "; str "two"]
  /\ yielded r = [(0%nat, str "one"); (1%nat, str "two")]
  /\ yielded r <> Py.enumerate 0 (Spec.split_by_line content).
Proof. vm_compute. repeat split. discriminate. Qed.

(** ** The size check of the download (C2) *)

Section Download.

Variable rt : runtime.

(** The test [size_mb > 128] on the two floor divisions holds from
    129 MiB on. *)
Lemma size_check_threshold (size : Z) :
  (128 <? size / 1024 / 1024) = true <-> 129 * 1024 * 1024 <= size.
Proof. rewrite Z.ltb_lt. split; intros H; Z.div_mod_to_equations; lia. Qed.

(** [S3ObjectSizeError] is raised exactly from 129 MiB on, and then
    nothing else happened. *)
Lemma size_error_iff (region : pyval) (bucket key : pystr) (size : Z) (w : world) :
  snd (_download_s3_object rt region bucket key size w) = inl S3ObjectSizeError
  <-> 129 * 1024 * 1024 <= size.
Proof.
  rewrite <- size_check_threshold. unfold _download_s3_object.
  destruct (128 <? size / 1024 / 1024); [split; reflexivity |].
  split; [| discriminate].
  unfold bind, LOGGER, Tempfile.mkstemp, download_fileobj, ret. simpl.
  destruct (Tempfile._mkstemp_inner _ _ _ _ _) as [[file rest]|]; simpl; [| discriminate].
  destruct (s3_get rt region bucket key); simpl; discriminate.
Qed.

Lemma size_error_world (region : pyval) (bucket key : pystr) (size : Z) (w : world) :
  129 * 1024 * 1024 <= size ->
  _download_s3_object rt region bucket key size w = (w, inl S3ObjectSizeError).
Proof.
  intros H. apply size_check_threshold in H.
  unfold _download_s3_object. rewrite H. reflexivity.
Qed.

(** Below 129 MiB, once a temporary name is found, the call to S3 is
    made; the result is the path when the client succeeds, and the file
    then holds the body. *)
Lemma download_below_threshold (region : pyval) (bucket key : pystr) (size : Z)
    (w : world) (file : pystr) (rest : list pystr) :
  size < 129 * 1024 * 1024 ->
  Tempfile._mkstemp_inner (fs w) (tmpdir rt) Tempfile.template
    (Py.replace "/" "-" key) (names w) = Some (file, rest) ->
  let '(w', res) := _download_s3_object rt region bucket key size w in
  s3_calls w' = s3_calls w ++ [(region, bucket, key)]
  /\ match s3_get rt region bucket key with
     | Some body => res = inr file /\ fs w' !! file = Some body
     | None =>
         res = inl ClientError
         /\ fs w' !! file = Some (s3_partial rt region bucket key)
     end.
Proof.
  intros Hsize Hname.
  assert (Hc : (128 <? size / 1024 / 1024) = false).
  { destruct (128 <? size / 1024 / 1024) eqn:E; [| reflexivity].
    apply size_check_threshold in E. lia. }
  unfold _download_s3_object. rewrite Hc.
  unfold bind, LOGGER, Tempfile.mkstemp, download_fileobj, ret. simpl.
  rewrite Hname. simpl.
  destruct (s3_get rt region bucket key) as [body|]; simpl.
  - split; [reflexivity |]. split; [reflexivity |]. apply lookup_insert_eq.
  - split; [reflexivity |]. split; [reflexivity |]. apply lookup_insert_eq.
Qed.

End Download.

(** C2, at the sizes where the code departs from it.  For a declared size
    above 128 MiB and below 129 MiB, [S3ObjectSizeError] is not raised
    and, a temporary name being available, the call to S3 is made. *)
Theorem C2_size_just_above_ceiling_is_fetched (rt : runtime) (region : pyval)
    (bucket key : pystr) (size : Z) (w : world) (file : pystr) (rest : list pystr) :
  128 * 1024 * 1024 < size < 129 * 1024 * 1024 ->
  Tempfile._mkstemp_inner (fs w) (tmpdir rt) Tempfile.template
    (Py.replace "/" "-" key) (names w) = Some (file, rest) ->
  let '(w', res) := _download_s3_object rt region bucket key size w in
  res <> inl S3ObjectSizeError
  /\ s3_calls w' = s3_calls w ++ [(region, bucket, key)].
Proof.
  intros [Hlo Hhi] Hname.
  pose proof (download_below_threshold rt region bucket key size w file rest Hhi Hname) as H.
  destruct (_download_s3_object rt region bucket key size w) as [w' res].
  destruct H as [Hcalls Hres]. split; [| exact Hcalls].
  destruct (s3_get rt region bucket key); destruct Hres as [-> _]; discriminate.
Qed.

Lemma C2_size_just_above_ceiling_is_fetched_witness :
  let rt := demo_runtime (str "body") in
  let w := demo_world [] [str "abc123"] in
  let '(w', res) :=
    _download_s3_object rt PyNone (str "bucket") (str "logs/big.log")
      (128 * 1024 * 1024 + 1) w in
  res <> inl S3ObjectSizeError
  /\ s3_calls w' = s3_calls w ++ [(PyNone, str "bucket", str "logs/big.log")].
Proof.
  intros rt w.
  apply (C2_size_just_above_ceiling_is_fetched rt PyNone (str "bucket") (str "logs/big.log")
           (128 * 1024 * 1024 + 1) w (str "/tmp/tmpabc123logs-big.log") []).
  - lia.
  - vm_compute. reflexivity.
Defined.

(** ** Percent-decoding (C8) *)

Section Unquote.

Lemma split_nonempty (sep : ascii) (s : pystr) : Py.split sep s <> [].
Proof.
  destruct s as [|c t]; simpl; [discriminate |].
  destruct (Ascii.eqb c sep); [discriminate |].
  destruct (Py.split sep t); discriminate.
Qed.

Lemma split_cons_sep (sep : ascii) (t : pystr) :
  Py.split sep (sep :: t) = [] :: Py.split sep t.
Proof. simpl. rewrite Ascii.eqb_refl. reflexivity. Qed.

Lemma split_cons_other (sep c : ascii) (t b : pystr) (bs : list pystr) :
  c <> sep -> Py.split sep t = b :: bs ->
  Py.split sep (c :: t) = (c :: b) :: bs.
Proof.
  intros Hc Ht. simpl. rewrite Ht.
  destruct (Ascii.eqb c sep) eqn:E; [| reflexivity].
  apply Ascii.eqb_eq in E. contradiction.
Qed.

(** A string without the separator is its only piece. *)
Lemma split_single (sep : ascii) (s b : pystr) : Py.split sep s = [b] -> s = b.
Proof.
  revert b. induction s as [|c t IH]; intros b; simpl.
  - intros [= <-]. reflexivity.
  - destruct (Ascii.eqb c sep).
    + intros [= _ H]. exfalso. exact (split_nonempty sep t H).
    + destruct (Py.split sep t) as [|b' bs] eqn:E; [intros [= <-] |].
      * exfalso. exact (split_nonempty sep t E).
      * intros [= <- ->]. f_equal. apply IH. reflexivity.
Qed.

Lemma unquote_bits_split (s : pystr) :
  Urllib.unquote s = Urllib.unquote_bits (Py.split "%" s).
Proof.
  unfold Urllib.unquote.
  destruct (Py.split "%" s) as [|b0 [|b1 bits]] eqn:E.
  - exfalso. exact (split_nonempty _ _ E).
  - simpl. rewrite app_nil_r. apply split_single in E. exact E.
  - reflexivity.
Qed.

Lemma hexval_percent (c : ascii) (x : Z) : Urllib.hexval c = Some x -> c <> "%"%char.
Proof. intros H ->. vm_compute in H. discriminate. Qed.

(** The first piece of [t] starts with two hexadecimal digits exactly
    when [t] does. *)
Lemma hextochr_first_piece (t b : pystr) (bs : list pystr) :
  Py.split "%" t = b :: bs ->
  match Urllib.hextochr t with
  | Some (x, rest) =>
      exists b', Urllib.hextochr b = Some (x, b') /\ Py.split "%" rest = b' :: bs
  | None => Urllib.hextochr b = None
  end.
Proof.
  intros Hs.
  destruct t as [|c1 [|c2 rest]].
  - simpl in Hs. injection Hs as <- <-. reflexivity.
  - simpl in Hs. destruct (Ascii.eqb c1 "%"); injection Hs as <- <-; reflexivity.
  - unfold Urllib.hextochr at 1.
    destruct (Py.split "%" rest) as [|r0 rs] eqn:Hr;
      [exfalso; exact (split_nonempty _ _ Hr) |].
    destruct (Ascii.eqb c1 "%") eqn:E1.
    { apply Ascii.eqb_eq in E1. subst c1. rewrite split_cons_sep in Hs.
      injection Hs as <- <-. reflexivity. }
    destruct (Ascii.eqb c2 "%") eqn:E2.
    { apply Ascii.eqb_eq in E2. subst c2.
      apply Ascii.eqb_neq in E1.
      rewrite (split_cons_other _ c1 _ [] (r0 :: rs) E1) in Hs
        by (rewrite split_cons_sep, Hr; reflexivity).
      injection Hs as <- <-.
      destruct (Urllib.hexval c1); reflexivity. }
    apply Ascii.eqb_neq in E1, E2.
    rewrite (split_cons_other _ c1 _ (c2 :: r0) rs E1) in Hs
      by (apply split_cons_other; assumption).
    injection Hs as <- <-. simpl.
    destruct (Urllib.hexval c1), (Urllib.hexval c2); try reflexivity.
    exists r0. split; [reflexivity | exact Hr].
Qed.

Lemma unquote_bits_unescape (n : nat) :
  forall s : pystr, (length s <= n)%nat ->
    Urllib.unquote_bits (Py.split "%" s) = Urllib.url_unescape s.
Proof.
  induction n as [|n IH]; intros s Hn.
  - destruct s; [reflexivity | simpl in Hn; lia].
  - destruct s as [|c t]; [reflexivity |].
    simpl in Hn.
    destruct (Py.split "%" t) as [|b bs] eqn:Ht;
      [exfalso; exact (split_nonempty _ _ Ht) |].
    assert (IHt : Urllib.unquote_bits (b :: bs) = Urllib.url_unescape t)
      by (rewrite <- Ht; apply IH; lia).
    cbn [Urllib.url_unescape].
    destruct (Ascii.eqb c "%") eqn:Ec.
    + apply Ascii.eqb_eq in Ec. subst c. rewrite split_cons_sep, Ht.
      pose proof (hextochr_first_piece t b bs Ht) as Hp.
      unfold Urllib.unquote_bits. cbn [app map concat]. unfold Urllib.unquote_item at 1.
      destruct (Urllib.hextochr t) as [[x rest]|] eqn:Hh.
      * destruct Hp as [b' [Hb Hrest]]. rewrite Hb.
        destruct t as [|c1 [|c2 rest']]; try discriminate.
        assert (rest = rest').
        { simpl in Hh. destruct (Urllib.hexval c1), (Urllib.hexval c2);
            try discriminate. injection Hh as _ <-. reflexivity. }
        subst rest'. simpl. f_equal.
        rewrite <- (IH rest) by (simpl in Hn; lia).
        rewrite Hrest. reflexivity.
      * rewrite Hp. simpl. f_equal. exact IHt.
    + apply Ascii.eqb_neq in Ec.
      rewrite (split_cons_other _ c _ b bs Ec Ht).
      simpl. f_equal. exact IHt.
Qed.

(** [urllib.unquote] is percent-decoding. *)
Lemma unquote_url_unescape (s : pystr) : Urllib.unquote s = Urllib.url_unescape s.
Proof.
  rewrite unquote_bits_split. apply (unquote_bits_unescape (length s)). lia.
Qed.

End Unquote.

(** ** The reference read from an S3 record (C8, C9) *)

Section Reference.

Variable rt : runtime.

Lemma getitem_error (v : pyval) (k : pystr) (e : exn) :
  Py.getitem v k = inl e -> e = KeyError \/ e = TypeError.
Proof.
  destruct v as [| z | s | d]; simpl; try (intros [= <-]; right; reflexivity).
  destruct (Py.assoc d k); [discriminate |]. intros [= <-]. left. reflexivity.
Qed.

Lemma getpath_error (ks : list pystr) :
  forall (v : pyval) (e : exn),
    Py.getpath v ks = inl e -> e = KeyError \/ e = TypeError.
Proof.
  induction ks as [|k ks IH]; intros v e; simpl; [discriminate |].
  destruct (Py.getitem v k) as [e' | x] eqn:E.
  - intros [= <-]. eapply getitem_error; eassumption.
  - apply IH.
Qed.

Lemma unquote_error (v : pyval) (e : exn) :
  unquote v = inl e -> e = AttributeError \/ e = UnicodeDecodeError.
Proof.
  destruct v as [| z | s | d]; simpl; try (intros [= <-]; left; reflexivity).
  unfold Urllib.decode_utf8. destruct (Urllib.utf8_valid _); [discriminate |].
  intros [= <-]. right. reflexivity.
Qed.

Lemma py_int_error (v : pyval) (e : exn) :
  py_int rt v = inl e -> e = ValueError \/ e = TypeError.
Proof.
  destruct v as [| z | s | d]; simpl; try (intros [= <-]; right; reflexivity).
  destruct (int_of_str rt s); [discriminate |]. intros [= <-]. left. reflexivity.
Qed.

(** Reading the reference has no effect. *)
Lemma s3_reference_world (raw_record : pyval) (w : world) :
  fst (s3_reference rt raw_record w) = w.
Proof.
  unfold s3_reference, bind, lift, ret.
  repeat match goal with
         | |- context [match ?x with inl _ => _ | inr _ => _ end] => destruct x
         | |- context [let (_, _) := (_, ?x) in _] => destruct x
         | |- context [match (_, ?x) with (_, _) => _ end] => destruct x
         end; reflexivity.
Qed.

Lemma pre_parse_s3_reference_error (raw_record : pyval) (w : world) (e : exn) :
  s3_reference rt raw_record w = (w, inl e) ->
  pre_parse_s3 rt raw_record w = (w, inl e).
Proof. intros H. unfold pre_parse_s3, bind. rewrite H. reflexivity. Qed.

Lemma pre_parse_s3_reference_ok (raw_record : pyval) (w : world)
    (ref : pyval * pystr * pystr * Z) :
  s3_reference rt raw_record w = (w, inr ref) ->
  pre_parse_s3 rt raw_record w = materialize rt ref w.
Proof. intros H. unfold pre_parse_s3, bind. rewrite H. reflexivity. Qed.

End Reference.

(** C8.  The reference read from an S3 record carries the URL-unescaped
    bucket name and object key, and it is this reference that is
    materialized: for a record whose escaped names decode to UTF-8, the
    bucket and the key handed on are the percent-decoded fields (bucket
    [my%20bucket] becomes [my bucket], key [logs%2F2024%2Ffile.gz]
    becomes [logs/2024/file.gz]). *)
Theorem C8_reference_carries_unescaped_names (rt : runtime) (raw_record : pyval)
    (w : world) (region : pyval) (name key : pystr) (size_v : pyval) (size : Z) :
  Py.getitem raw_record (str "awsRegion") = inr region ->
  Py.getpath raw_record [str "s3"; str "bucket"; str "name"] = inr (PyStr name) ->
  Py.getpath raw_record [str "s3"; str "object"; str "key"] = inr (PyStr key) ->
  Py.getpath raw_record [str "s3"; str "object"; str "size"] = inr size_v ->
  py_int rt size_v = inr size ->
  Urllib.utf8_valid (Urllib.url_unescape name) = true ->
  Urllib.utf8_valid (Urllib.url_unescape key) = true ->
  s3_reference rt raw_record w
  = (w, inr (region, Urllib.url_unescape name, Urllib.url_unescape key, size))
  /\ pre_parse_s3 rt raw_record w
     = materialize rt (region, Urllib.url_unescape name, Urllib.url_unescape key, size) w.
Proof.
  intros Hregion Hname Hkey Hsize Hint Hn Hk.
  assert (Href : s3_reference rt raw_record w
                 = (w, inr (region, Urllib.url_unescape name, Urllib.url_unescape key, size))).
  { unfold s3_reference, bind, lift, ret.
    rewrite Hregion, Hname. unfold unquote at 1.
    rewrite unquote_url_unescape. unfold Urllib.decode_utf8 at 1. rewrite Hn.
    rewrite Hkey. unfold unquote.
    rewrite unquote_url_unescape. unfold Urllib.decode_utf8. rewrite Hk.
    rewrite Hsize, Hint. reflexivity. }
  split; [exact Href |].
  apply pre_parse_s3_reference_ok. exact Href.
Qed.

Lemma C8_reference_carries_unescaped_names_witness :
  let rt := demo_runtime (str "body") in
  let w := demo_world [] [str "abc123"] in
  let raw_record :=
    s3_record (str "my%20bucket") (str "logs%2F2024%2Ffile.gz") (PyInt 2048) in
  s3_reference rt raw_record w
  = (w, inr (PyStr (str "us-east-1"), str "my bucket", str "logs/2024/file.gz", 2048))
  /\ pre_parse_s3 rt raw_record w
     = materialize rt
         (PyStr (str "us-east-1"), str "my bucket", str "logs/2024/file.gz", 2048) w.
Proof.
  intros rt w raw_record.
  apply (C8_reference_carries_unescaped_names rt raw_record w
           (PyStr (str "us-east-1")) (str "my%20bucket") (str "logs%2F2024%2Ffile.gz")
           (PyInt 2048) 2048).
  - vm_compute. reflexivity.
  - vm_compute. reflexivity.
  - vm_compute. reflexivity.
  - vm_compute. reflexivity.
  - vm_compute. reflexivity.
  - vm_compute. reflexivity.
  - vm_compute. reflexivity.
Defined.

(** C9 (amended).  Reading the reference fails whenever a required field
    (region, bucket name, object key, declared size) is absent or the
    declared size is a value [int] rejects, and [pre_parse_s3] raises the
    exception before anything is materialized: the world is unchanged.
    The exception is that of the first step that fails, in the order
    region, bucket name, its unquoting, key, its unquoting, size, [int]:
    [KeyError] for an absent field, [ValueError] or [TypeError] for a
    size [int] rejects. *)
Theorem C9_absent_field_or_bad_size_fails_first (rt : runtime) (raw_record : pyval)
    (w : world) :
  Py.getitem raw_record (str "awsRegion") = inl KeyError
  \/ Py.getpath raw_record [str "s3"; str "bucket"; str "name"] = inl KeyError
  \/ Py.getpath raw_record [str "s3"; str "object"; str "key"] = inl KeyError
  \/ Py.getpath raw_record [str "s3"; str "object"; str "size"] = inl KeyError
  \/ (exists v e, Py.getpath raw_record [str "s3"; str "object"; str "size"] = inr v
                  /\ py_int rt v = inl e) ->
  exists e, In e envelope_errors
            /\ s3_reference rt raw_record w = (w, inl e)
            /\ pre_parse_s3 rt raw_record w = (w, inl e)
            /\ (forall e', Py.getitem raw_record (str "awsRegion") = inl e' -> e = e')
            /\ (forall region e',
                  Py.getitem raw_record (str "awsRegion") = inr region ->
                  Py.getpath raw_record [str "s3"; str "bucket"; str "name"] = inl e' ->
                  e = e')
            /\ (forall region name e',
                  Py.getitem raw_record (str "awsRegion") = inr region ->
                  Py.getpath raw_record [str "s3"; str "bucket"; str "name"] = inr name ->
                  unquote name = inl e' ->
                  e = e')
            /\ (forall region name bucket e',
                  Py.getitem raw_record (str "awsRegion") = inr region ->
                  Py.getpath raw_record [str "s3"; str "bucket"; str "name"] = inr name ->
                  unquote name = inr bucket ->
                  Py.getpath raw_record [str "s3"; str "object"; str "key"] = inl e' ->
                  e = e')
            /\ (forall region name bucket key_v e',
                  Py.getitem raw_record (str "awsRegion") = inr region ->
                  Py.getpath raw_record [str "s3"; str "bucket"; str "name"] = inr name ->
                  unquote name = inr bucket ->
                  Py.getpath raw_record [str "s3"; str "object"; str "key"] = inr key_v ->
                  unquote key_v = inl e' ->
                  e = e')
            /\ (forall region name bucket key_v key e',
                  Py.getitem raw_record (str "awsRegion") = inr region ->
                  Py.getpath raw_record [str "s3"; str "bucket"; str "name"] = inr name ->
                  unquote name = inr bucket ->
                  Py.getpath raw_record [str "s3"; str "object"; str "key"] = inr key_v ->
                  unquote key_v = inr key ->
                  Py.getpath raw_record [str "s3"; str "object"; str "size"] = inl e' ->
                  e = e')
            /\ (forall region name bucket key_v key size_v e',
                  Py.getitem raw_record (str "awsRegion") = inr region ->
                  Py.getpath raw_record [str "s3"; str "bucket"; str "name"] = inr name ->
                  unquote name = inr bucket ->
                  Py.getpath raw_record [str "s3"; str "object"; str "key"] = inr key_v ->
                  unquote key_v = inr key ->
                  Py.getpath raw_record [str "s3"; str "object"; str "size"] = inr size_v ->
                  py_int rt size_v = inl e' ->
                  e = e' /\ (e = ValueError \/ e = TypeError)).
Proof.
  intros H.
  cut (exists e,
          In e envelope_errors
          /\ s3_reference rt raw_record w = (w, inl e)
          /\ (forall e', Py.getitem raw_record (str "awsRegion") = inl e' -> e = e')
          /\ (forall region e',
                Py.getitem raw_record (str "awsRegion") = inr region ->
                Py.getpath raw_record [str "s3"; str "bucket"; str "name"] = inl e' ->
                e = e')
          /\ (forall region name e',
                Py.getitem raw_record (str "awsRegion") = inr region ->
                Py.getpath raw_record [str "s3"; str "bucket"; str "name"] = inr name ->
                unquote name = inl e' ->
                e = e')
          /\ (forall region name bucket e',
                Py.getitem raw_record (str "awsRegion") = inr region ->
                Py.getpath raw_record [str "s3"; str "bucket"; str "name"] = inr name ->
                unquote name = inr bucket ->
                Py.getpath raw_record [str "s3"; str "object"; str "key"] = inl e' ->
                e = e')
          /\ (forall region name bucket key_v e',
                Py.getitem raw_record (str "awsRegion") = inr region ->
                Py.getpath raw_record [str "s3"; str "bucket"; str "name"] = inr name ->
                unquote name = inr bucket ->
                Py.getpath raw_record [str "s3"; str "object"; str "key"] = inr key_v ->
                unquote key_v = inl e' ->
                e = e')
          /\ (forall region name bucket key_v key e',
                Py.getitem raw_record (str "awsRegion") = inr region ->
                Py.getpath raw_record [str "s3"; str "bucket"; str "name"] = inr name ->
                unquote name = inr bucket ->
                Py.getpath raw_record [str "s3"; str "object"; str "key"] = inr key_v ->
                unquote key_v = inr key ->
                Py.getpath raw_record [str "s3"; str "object"; str "size"] = inl e' ->
                e = e')
          /\ (forall region name bucket key_v key size_v e',
                Py.getitem raw_record (str "awsRegion") = inr region ->
                Py.getpath raw_record [str "s3"; str "bucket"; str "name"] = inr name ->
                unquote name = inr bucket ->
                Py.getpath raw_record [str "s3"; str "object"; str "key"] = inr key_v ->
                unquote key_v = inr key ->
                Py.getpath raw_record [str "s3"; str "object"; str "size"] = inr size_v ->
                py_int rt size_v = inl e' ->
                e = e' /\ (e = ValueError \/ e = TypeError))).
  { intros [e [Hin [He Hrest]]]. exists e. split; [exact Hin |]. split; [exact He |].
    split; [apply pre_parse_s3_reference_error; exact He | exact Hrest]. }
  unfold s3_reference, bind, lift, ret, envelope_errors.
  destruct (Py.getitem raw_record (str "awsRegion")) as [e | region] eqn:E1.
  { exists e. split; [destruct (getitem_error _ _ _ E1) as [-> | ->]; simpl; tauto |].
    split; [reflexivity |]. repeat split; intros; congruence. }
  destruct (Py.getpath raw_record [str "s3"; str "bucket"; str "name"])
    as [e | name] eqn:E2.
  { exists e. split; [destruct (getpath_error _ _ _ E2) as [-> | ->]; simpl; tauto |].
    split; [reflexivity |]. repeat split; intros; congruence. }
  destruct (unquote name) as [e | bucket] eqn:E3.
  { exists e. split; [destruct (unquote_error _ _ E3) as [-> | ->]; simpl; tauto |].
    split; [reflexivity |]. repeat split; intros; congruence. }
  destruct (Py.getpath raw_record [str "s3"; str "object"; str "key"])
    as [e | key_v] eqn:E4.
  { exists e. split; [destruct (getpath_error _ _ _ E4) as [-> | ->]; simpl; tauto |].
    split; [reflexivity |]. repeat split; intros; congruence. }
  destruct (unquote key_v) as [e | key] eqn:E5.
  { exists e. split; [destruct (unquote_error _ _ E5) as [-> | ->]; simpl; tauto |].
    split; [reflexivity |]. repeat split; intros; congruence. }
  destruct (Py.getpath raw_record [str "s3"; str "object"; str "size"])
    as [e | size_v] eqn:E6.
  { exists e. split; [destruct (getpath_error _ _ _ E6) as [-> | ->]; simpl; tauto |].
    split; [reflexivity |]. repeat split; intros; congruence. }
  destruct (py_int rt size_v) as [e | size] eqn:E7.
  { exists e. split; [destruct (py_int_error _ _ _ E7) as [-> | ->]; simpl; tauto |].
    split; [reflexivity |]. repeat split; intros; try congruence.
    exact (py_int_error rt size_v e E7). }
  exfalso.
  destruct H as [H | [H | [H | [H | [v [e [H1 H2]]]]]]]; try discriminate.
  injection H1 as <-. rewrite E7 in H2. discriminate.
Qed.

Lemma C9_absent_field_or_bad_size_fails_first_witness :
  let rt := demo_runtime (str "body") in
  let w := demo_world [] [str "abc123"] in
  let raw_record :=
    PyDict [(str "awsRegion", PyStr (str "us-east-1"));
            (str "s3", PyDict [(str "bucket", PyDict [(str "name", PyStr (str "b"))]);
                               (str "object", PyDict [(str "size", PyInt 10)])])] in
  s3_reference rt raw_record w = (w, inl KeyError)
  /\ pre_parse_s3 rt raw_record w = (w, inl KeyError).
Proof.
  intros rt w raw_record.
  destruct (C9_absent_field_or_bad_size_fails_first rt raw_record w)
    as [e [_ [Href [Hpre [_ [_ [_ [Hkey _]]]]]]]].
  - right. right. left. vm_compute. reflexivity.
  - rewrite Href, Hpre.
    rewrite (Hkey (PyStr (str "us-east-1")) (PyStr (str "b")) (str "b") KeyError);
      [split; reflexivity | vm_compute; reflexivity | vm_compute; reflexivity
       | vm_compute; reflexivity | vm_compute; reflexivity].
Defined.

(** C9 as stated fails: a record with a negative declared size is not
    rejected; the object is fetched and the path returned with the
    size. *)
Lemma C9_negative_size_is_downloaded :
  let rt := demo_runtime (str "body") in
  let w := demo_world [] [str "abc123"] in
  let '(w', res) := pre_parse_s3 rt (s3_record (str "bucket") (str "k.log") (PyInt (-5))) w in
  res = inr (str "/tmp/tmpabc123k.log", -5)
  /\ s3_calls w' = [(PyStr (str "us-east-1"), str "bucket", str "k.log")]
  /\ fs w' !! str "/tmp/tmpabc123k.log" = Some (str "body").
Proof. vm_compute. repeat split. Qed.

(** ** Base64 (C7) *)

Section Base64Facts.

Import Base64.

Lemma all_ascii (a : ascii) : In a (map ascii_of_nat (seq 0 256)).
Proof.
  rewrite <- (ascii_nat_embedding a). apply in_map. apply in_seq.
  pose proof (nat_ascii_bounded a). lia.
Qed.

(** Checking a property of one byte, or of two, on all of them. *)
Lemma forall_ascii (P : ascii -> bool) :
  forallb P (map ascii_of_nat (seq 0 256)) = true -> forall a, P a = true.
Proof. intros H a. rewrite forallb_forall in H. apply H. apply all_ascii. Qed.

Lemma forall_ascii2 (P : ascii -> ascii -> bool) :
  forallb (fun a => forallb (P a) (map ascii_of_nat (seq 0 256)))
    (map ascii_of_nat (seq 0 256)) = true ->
  forall a b, P a b = true.
Proof.
  intros H a b. rewrite forallb_forall in H.
  apply (forall_ascii (P a)). apply H. apply all_ascii.
Qed.

(** The loop on a character of the alphabet, at the four positions of a
    quad. *)
Lemma a2b_loop_pos0 (c : ascii) (r : pystr) (lc : Z) (out : pystr) :
  in_alphabet c = true ->
  a2b_loop (c :: r) 0 lc 0 out
  = a2b_loop r 6 (Z.lor (Z.shiftl lc 6) (table_a2b_base64 c)) 1 out.
Proof.
  unfold in_alphabet. intros H.
  apply andb_prop in H. destruct H as [H H3]. apply andb_prop in H. destruct H as [H1 H2].
  apply negb_true_iff in H1, H2, H3.
  cbn [a2b_loop]. rewrite H1, H2, H3. reflexivity.
Qed.

Lemma a2b_loop_pos1 (c : ascii) (r : pystr) (lc : Z) (out : pystr) :
  in_alphabet c = true ->
  a2b_loop (c :: r) 6 lc 1 out
  = a2b_loop r 4 (Z.land (Z.lor (Z.shiftl lc 6) (table_a2b_base64 c)) 15) 2
      (out ++ [chr (Z.land (Z.shiftr (Z.lor (Z.shiftl lc 6) (table_a2b_base64 c)) 4) 255)]).
Proof.
  unfold in_alphabet. intros H.
  apply andb_prop in H. destruct H as [H H3]. apply andb_prop in H. destruct H as [H1 H2].
  apply negb_true_iff in H1, H2, H3.
  cbn [a2b_loop]. rewrite H1, H2, H3. reflexivity.
Qed.

Lemma a2b_loop_pos2 (c : ascii) (r : pystr) (lc : Z) (out : pystr) :
  in_alphabet c = true ->
  a2b_loop (c :: r) 4 lc 2 out
  = a2b_loop r 2 (Z.land (Z.lor (Z.shiftl lc 6) (table_a2b_base64 c)) 3) 3
      (out ++ [chr (Z.land (Z.shiftr (Z.lor (Z.shiftl lc 6) (table_a2b_base64 c)) 2) 255)]).
Proof.
  unfold in_alphabet. intros H.
  apply andb_prop in H. destruct H as [H H3]. apply andb_prop in H. destruct H as [H1 H2].
  apply negb_true_iff in H1, H2, H3.
  cbn [a2b_loop]. rewrite H1, H2, H3. reflexivity.
Qed.

Lemma a2b_loop_pos3 (c : ascii) (r : pystr) (lc : Z) (out : pystr) :
  in_alphabet c = true ->
  a2b_loop (c :: r) 2 lc 3 out
  = a2b_loop r 0 (Z.land (Z.lor (Z.shiftl lc 6) (table_a2b_base64 c)) 0) 0
      (out ++ [chr (Z.land (Z.shiftr (Z.lor (Z.shiftl lc 6) (table_a2b_base64 c)) 0) 255)]).
Proof.
  unfold in_alphabet. intros H.
  apply andb_prop in H. destruct H as [H H3]. apply andb_prop in H. destruct H as [H1 H2].
  apply negb_true_iff in H1, H2, H3.
  cbn [a2b_loop]. rewrite H1, H2, H3. reflexivity.
Qed.

(** What the decoder computes from the characters of the encoder, byte
    by byte; each fact is checked on every byte or pair of bytes. *)
Lemma enc1_fact (a : ascii) :
  in_alphabet (enc1 a) = true
  /\ Z.lor (Z.shiftl 0 6) (table_a2b_base64 (enc1 a)) = Z.shiftr (ord a) 2.
Proof.
  pose proof (forall_ascii
    (fun a => in_alphabet (enc1 a)
              && (Z.lor (Z.shiftl 0 6) (table_a2b_base64 (enc1 a)) =? Z.shiftr (ord a) 2))) as H.
  specialize (H ltac:(vm_compute; reflexivity) a). simpl in H.
  apply andb_prop in H. destruct H as [H1 H2]. apply Z.eqb_eq in H2. auto.
Qed.

Lemma enc2_fact (a b : ascii) :
  in_alphabet (enc2 a b) = true
  /\ chr (Z.land (Z.shiftr (Z.lor (Z.shiftl (Z.shiftr (ord a) 2) 6)
                              (table_a2b_base64 (enc2 a b))) 4) 255) = a
  /\ Z.land (Z.lor (Z.shiftl (Z.shiftr (ord a) 2) 6) (table_a2b_base64 (enc2 a b))) 15
     = Z.shiftr (ord b) 4.
Proof.
  pose proof (forall_ascii2
    (fun a b =>
       in_alphabet (enc2 a b)
       && Ascii.eqb (chr (Z.land (Z.shiftr (Z.lor (Z.shiftl (Z.shiftr (ord a) 2) 6)
                                              (table_a2b_base64 (enc2 a b))) 4) 255)) a
       && (Z.land (Z.lor (Z.shiftl (Z.shiftr (ord a) 2) 6) (table_a2b_base64 (enc2 a b))) 15
           =? Z.shiftr (ord b) 4))) as H.
  specialize (H ltac:(vm_compute; reflexivity) a b). simpl in H.
  apply andb_prop in H. destruct H as [H H3]. apply andb_prop in H. destruct H as [H1 H2].
  apply Ascii.eqb_eq in H2. apply Z.eqb_eq in H3. auto.
Qed.

Lemma enc3_fact (b c : ascii) :
  in_alphabet (enc3 b c) = true
  /\ chr (Z.land (Z.shiftr (Z.lor (Z.shiftl (Z.shiftr (ord b) 4) 6)
                              (table_a2b_base64 (enc3 b c))) 2) 255) = b
  /\ Z.land (Z.lor (Z.shiftl (Z.shiftr (ord b) 4) 6) (table_a2b_base64 (enc3 b c))) 3
     = Z.shiftr (ord c) 6.
Proof.
  pose proof (forall_ascii2
    (fun b c =>
       in_alphabet (enc3 b c)
       && Ascii.eqb (chr (Z.land (Z.shiftr (Z.lor (Z.shiftl (Z.shiftr (ord b) 4) 6)
                                              (table_a2b_base64 (enc3 b c))) 2) 255)) b
       && (Z.land (Z.lor (Z.shiftl (Z.shiftr (ord b) 4) 6) (table_a2b_base64 (enc3 b c))) 3
           =? Z.shiftr (ord c) 6))) as H.
  specialize (H ltac:(vm_compute; reflexivity) b c). simpl in H.
  apply andb_prop in H. destruct H as [H H3]. apply andb_prop in H. destruct H as [H1 H2].
  apply Ascii.eqb_eq in H2. apply Z.eqb_eq in H3. auto.
Qed.

Lemma enc4_fact (c : ascii) :
  in_alphabet (enc4 c) = true
  /\ chr (Z.land (Z.shiftr (Z.lor (Z.shiftl (Z.shiftr (ord c) 6) 6)
                              (table_a2b_base64 (enc4 c))) 0) 255) = c.
Proof.
  pose proof (forall_ascii
    (fun c =>
       in_alphabet (enc4 c)
       && Ascii.eqb (chr (Z.land (Z.shiftr (Z.lor (Z.shiftl (Z.shiftr (ord c) 6) 6)
                                              (table_a2b_base64 (enc4 c))) 0) 255)) c)) as H.
  specialize (H ltac:(vm_compute; reflexivity) c). simpl in H.
  apply andb_prop in H. destruct H as [H1 H2]. apply Ascii.eqb_eq in H2. auto.
Qed.

End Base64Facts.

Section Base64RoundTrip.

Import Base64.

(** Induction on byte strings by groups of three. *)
Lemma list_ind3 {A} (P : list A -> Prop) :
  P [] -> (forall a, P [a]) -> (forall a b, P [a; b]) ->
  (forall a b c l, P l -> P (a :: b :: c :: l)) ->
  forall l, P l.
Proof.
  intros H0 H1 H2 H3 l.
  cut (P l /\ (forall a, P (a :: l)) /\ (forall a b, P (a :: b :: l))).
  { intros [H _]. exact H. }
  induction l as [|x l [IH0 [IH1 IH2]]].
  - repeat split; auto.
  - repeat split; auto.
Qed.

(** A full group: four characters in, three bytes out, and the decoder
    is back in its initial state. *)
Lemma a2b_loop_group (a b c : ascii) (r out : pystr) :
  a2b_loop (enc1 a :: enc2 a b :: enc3 b c :: enc4 c :: r) 0 0 0 out
  = a2b_loop r 0 0 0 (out ++ [a; b; c]).
Proof.
  destruct (enc1_fact a) as [A1 A2].
  destruct (enc2_fact a b) as [B1 [B2 B3]].
  destruct (enc3_fact b c) as [C1 [C2 C3]].
  destruct (enc4_fact c) as [D1 D2].
  rewrite (a2b_loop_pos0 _ _ _ _ A1), A2.
  rewrite (a2b_loop_pos1 _ _ _ _ B1), B2, B3.
  rewrite (a2b_loop_pos2 _ _ _ _ C1), C2, C3.
  rewrite (a2b_loop_pos3 _ _ _ _ D1), D2.
  rewrite Z.land_0_r. rewrite <- !app_assoc. reflexivity.
Qed.

(** The decoder's loop over an encoding gives the bytes back and ends
    with no bit left over. *)
Lemma a2b_loop_b64encode (bs : pystr) :
  forall out, a2b_loop (b64encode bs) 0 0 0 out = (0, out ++ bs).
Proof.
  induction bs as [| a | a b | a b c l IH] using list_ind3; intros out.
  - simpl. rewrite app_nil_r. reflexivity.
  - cbn [b64encode].
    destruct (enc1_fact a) as [A1 A2].
    destruct (enc2_fact a "000") as [B1 [B2 B3]].
    rewrite (a2b_loop_pos0 _ _ _ _ A1), A2.
    rewrite (a2b_loop_pos1 _ _ _ _ B1), B2, B3.
    reflexivity.
  - cbn [b64encode].
    destruct (enc1_fact a) as [A1 A2].
    destruct (enc2_fact a b) as [B1 [B2 B3]].
    destruct (enc3_fact b "000") as [C1 [C2 C3]].
    rewrite (a2b_loop_pos0 _ _ _ _ A1), A2.
    rewrite (a2b_loop_pos1 _ _ _ _ B1), B2, B3.
    rewrite (a2b_loop_pos2 _ _ _ _ C1), C2, C3.
    rewrite <- !app_assoc. reflexivity.
  - cbn [b64encode]. rewrite a2b_loop_group, IH, <- app_assoc. reflexivity.
Qed.

(** Decoding an encoding gives the bytes back. *)
Lemma a2b_base64_b64encode (bs : pystr) : a2b_base64 (b64encode bs) = Some bs.
Proof. unfold a2b_base64. rewrite a2b_loop_b64encode. reflexivity. Qed.

(** An encoding is made of characters of the alphabet and pads. *)
Lemma b64encode_chars (bs : pystr) :
  Forall (fun c => table_a2b_base64 c <> -1) (b64encode bs).
Proof.
  assert (Hin : forall c, in_alphabet c = true -> table_a2b_base64 c <> -1).
  { intros c H. unfold in_alphabet in H. apply andb_prop in H. destruct H as [_ H].
    apply negb_true_iff in H. apply Z.eqb_neq in H. exact H. }
  assert (Hpad : table_a2b_base64 BASE64_PAD <> -1) by (vm_compute; discriminate).
  induction bs as [| a | a b | a b c l IH] using list_ind3; cbn [b64encode].
  - constructor.
  - repeat constructor; try exact Hpad; apply Hin;
      [apply enc1_fact | apply (enc2_fact a "000")].
  - repeat constructor; try exact Hpad; apply Hin;
      [apply enc1_fact | apply (enc2_fact a b) | apply (enc3_fact b "000")].
  - repeat (constructor; [apply Hin |]); try exact IH;
      [apply enc1_fact | apply (enc2_fact a b) | apply (enc3_fact b c) | apply enc4_fact].
Qed.

End Base64RoundTrip.

(** C7 (amended).  [pre_parse_kinesis] returns the base64 decoding of the
    payload: when the payload is the base64 encoding of some bytes, it
    returns these bytes (so a payload equal to base64("hello") yields
    [hello]); and it fails with the decode error only if the payload is
    not valid base64. *)
Theorem C7_decodes_valid_base64 (raw_record : pyval) (w : world)
    (eventID eventSourceARN : pyval) (s : pystr) :
  Py.getitem raw_record (str "eventID") = inr eventID ->
  Py.getitem raw_record (str "eventSourceARN") = inr eventSourceARN ->
  Py.getpath raw_record [str "kinesis"; str "data"] = inr (PyStr s) ->
  (forall bs, s = Base64.b64encode bs -> snd (pre_parse_kinesis raw_record w) = inr bs)
  /\ (snd (pre_parse_kinesis raw_record w) = inl TypeError -> ~ Base64.valid_base64 s).
Proof.
  intros Hid Harn Hdata.
  assert (Hrun : snd (pre_parse_kinesis raw_record w) = Base64.b64decode (PyStr s)).
  { unfold pre_parse_kinesis, bind, lift, LOGGER. rewrite Hid, Harn, Hdata. reflexivity. }
  rewrite Hrun. split.
  - intros bs ->. simpl. rewrite a2b_base64_b64encode. reflexivity.
  - intros Herr [bs ->]. simpl in Herr. rewrite a2b_base64_b64encode in Herr. discriminate.
Qed.

Lemma C7_decodes_valid_base64_witness :
  let raw_record := kinesis_record (PyStr (str "aGVsbG8=")) in
  let w := demo_world [] [] in
  (forall bs, str "aGVsbG8=" = Base64.b64encode bs ->
              snd (pre_parse_kinesis raw_record w) = inr bs)
  /\ (snd (pre_parse_kinesis raw_record w) = inl TypeError ->
      ~ Base64.valid_base64 (str "aGVsbG8=")).
Proof.
  intros raw_record w.
  apply (C7_decodes_valid_base64 raw_record w (PyStr (str "shardId-000:1"))
           (PyStr (str "arn:aws:kinesis:stream/s")) (str "aGVsbG8=")).
  - vm_compute. reflexivity.
  - vm_compute. reflexivity.
  - vm_compute. reflexivity.
Defined.

(** The payload of the specification's example and what it decodes to. *)
Example base64_hello :
  Base64.b64encode (str "hello") = str "aGVsbG8="
  /\ snd (pre_parse_kinesis (kinesis_record (PyStr (str "aGVsbG8="))) (demo_world [] []))
     = inr (str "hello").
Proof. vm_compute. split; reflexivity. Qed.

(** C7 as stated fails: a payload with a character outside the alphabet
    is not valid base64, yet it is decoded without an error, the
    character being skipped. *)
Lemma C7_invalid_payload_is_accepted :
  let s := str "aGVs*bG8=" in
  ~ Base64.valid_base64 s
  /\ snd (pre_parse_kinesis (kinesis_record (PyStr s)) (demo_world [] []))
     = inr (str "hello").
Proof.
  split; [| vm_compute; reflexivity].
  intros [bs H].
  pose proof (b64encode_chars bs) as F. rewrite <- H in F.
  rewrite Forall_forall in F.
  apply (F "*"%char); [| vm_compute; reflexivity].
  apply list_elem_of_In. vm_compute. tauto.
Qed.

(** ** The temporary path and the extension test (C10) *)

Section SplitExt.

Lemma rfind_from_notin (c : ascii) (s : pystr) :
  forall i, ~ In c s -> Py.rfind_from i s c = -1.
Proof.
  induction s as [|x t IH]; intros i H; simpl; [reflexivity |].
  rewrite IH by (intros Hc; apply H; right; exact Hc). simpl.
  destruct (Ascii.eqb x c) eqn:E; [| reflexivity].
  apply Ascii.eqb_eq in E. exfalso. apply H. left. exact E.
Qed.

(** The index found is that of the last occurrence. *)
Lemma rfind_from_last (c : ascii) (a b : pystr) :
  forall i, 0 <= i -> ~ In c b ->
    Py.rfind_from i (a ++ c :: b) c = i + Z.of_nat (length a).
Proof.
  induction a as [|x a IH]; intros i Hi Hb; simpl.
  - rewrite rfind_from_notin by exact Hb. simpl. rewrite Ascii.eqb_refl. lia.
  - rewrite IH by (try lia; exact Hb).
    destruct (0 <=? i + 1 + Z.of_nat (length a)) eqn:E; [lia |].
    apply Z.leb_gt in E. lia.
Qed.

Lemma rfind_from_app_notin (c : ascii) (a b : pystr) :
  forall i, ~ In c b -> Py.rfind_from i (a ++ b) c = Py.rfind_from i a c.
Proof.
  induction a as [|x a IH]; intros i Hb; simpl.
  - apply rfind_from_notin. exact Hb.
  - rewrite IH by exact Hb. reflexivity.
Qed.

Lemma rfind_from_bound (c : ascii) (s : pystr) :
  forall i, 0 <= i ->
    Py.rfind_from i s c = -1
    \/ (i <= Py.rfind_from i s c < i + Z.of_nat (length s)).
Proof.
  induction s as [|x t IH]; intros i Hi; [left; reflexivity |].
  cbn [Py.rfind_from length].
  destruct (IH (i + 1) ltac:(lia)) as [-> | H].
  - simpl. destruct (Ascii.eqb x c); [right; lia | left; reflexivity].
  - destruct (0 <=? Py.rfind_from (i + 1) t c) eqn:E; [right; lia |].
    apply Z.leb_gt in E. lia.
Qed.

Lemma last_occurrence (c : ascii) (s : pystr) :
  In c s -> exists a b, s = a ++ c :: b /\ ~ In c b.
Proof.
  induction s as [|x t IH]; intros H; [destruct H |].
  destruct (in_dec ascii_dec c t) as [Ht | Ht].
  - destruct (IH Ht) as [a [b [-> Hb]]]. exists (x :: a), b. split; [reflexivity | exact Hb].
  - destruct H as [-> | H]; [| contradiction].
    exists [], t. split; [reflexivity | exact Ht].
Qed.

(** The extension of a name with a last dot is the part from it on. *)
Lemma last_extension_dot (sa sb : pystr) :
  ~ In "."%char sb -> Spec.last_extension (sa ++ "."%char :: sb) = "."%char :: sb.
Proof.
  intros Hb. unfold Spec.last_extension, Py.rfind.
  rewrite rfind_from_last by (try lia; exact Hb).
  destruct (0 <=? 0 + Z.of_nat (length sa)) eqn:E; [| apply Z.leb_gt in E; lia].
  unfold Py.slice_from. replace (Z.to_nat (0 + Z.of_nat (length sa))) with (length sa) by lia.
  apply drop_app_length.
Qed.

Lemma last_extension_nodot (s : pystr) :
  ~ In "."%char s -> Spec.last_extension s = [].
Proof.
  intros H. unfold Spec.last_extension, Py.rfind.
  rewrite rfind_from_notin by exact H. reflexivity.
Qed.

(** A name has the extension [.gz] exactly when it ends in [.gz]. *)
Lemma last_extension_gz (s : pystr) :
  Spec.last_extension s = str ".gz" <-> str ".gz" `suffix_of` s.
Proof.
  assert (Hgz : ~ In "."%char (str "gz")) by (vm_compute; intuition discriminate).
  split.
  - intros H. destruct (in_dec ascii_dec "."%char s) as [Hin | Hin].
    + destruct (last_occurrence _ _ Hin) as [a [b [-> Hb]]].
      rewrite last_extension_dot in H by exact Hb.
      exists a. rewrite H. reflexivity.
    + rewrite last_extension_nodot in H by exact Hin. discriminate.
  - intros [k ->]. apply (last_extension_dot k (str "gz")). exact Hgz.
Qed.

(** The extension of a path made of a directory part, the prefix
    [tmp], a candidate name and a suffix without separator is the
    extension of the suffix. *)
Lemma splitext_tmp_path (D name suf : pystr) :
  D = [] \/ (exists D', D = D' ++ ["/"%char]) ->
  ~ In "/"%char name -> ~ In "."%char name -> ~ In "/"%char suf ->
  snd (OsPath.splitext (D ++ Tempfile.template ++ name ++ suf))
  = Spec.last_extension suf.
Proof.
  intros HD Hn1 Hn2 Hs.
  assert (HB1 : ~ In "/"%char (Tempfile.template ++ name ++ suf)).
  { rewrite !in_app_iff. intros [H | [H | H]]; try contradiction.
    vm_compute in H. intuition discriminate. }
  assert (Hsep : Py.rfind (D ++ Tempfile.template ++ name ++ suf) "/"
                 = Z.of_nat (length D) - 1).
  { unfold Py.rfind. destruct HD as [-> | [D' ->]].
    - simpl app. rewrite rfind_from_notin by exact HB1. reflexivity.
    - rewrite <- app_assoc. simpl app.
      rewrite rfind_from_last by (try lia; exact HB1).
      rewrite length_app. simpl. lia. }
  unfold OsPath.splitext. rewrite Hsep.
  destruct (in_dec ascii_dec "."%char suf) as [Hin | Hin].
  - destruct (last_occurrence _ _ Hin) as [sa [sb [-> Hb]]].
    rewrite last_extension_dot by exact Hb.
    assert (Hdot : Py.rfind (D ++ Tempfile.template ++ name ++ sa ++ "."%char :: sb) "."
                   = Z.of_nat (length (D ++ Tempfile.template ++ name ++ sa))).
    { unfold Py.rfind.
      replace (D ++ Tempfile.template ++ name ++ sa ++ "."%char :: sb)
        with ((D ++ Tempfile.template ++ name ++ sa) ++ "."%char :: sb)
        by (rewrite <- !app_assoc; reflexivity).
      rewrite rfind_from_last by (try lia; exact Hb). lia. }
    rewrite Hdot. rewrite !length_app. change (length Tempfile.template) with 3%nat.
    replace (Z.of_nat (length D) - 1 + 1) with (Z.of_nat (length D)) by lia.
    replace (Z.to_nat (Z.of_nat (length D + (3 + (length name + length sa)))
                       - Z.of_nat (length D)))
      with (S (2 + (length name + length sa))) by lia.
    assert (Hidx : Py.index (D ++ Tempfile.template ++ name ++ sa ++ "."%char :: sb)
                     (Z.of_nat (length D)) = "t"%char).
    { unfold Py.index. rewrite Nat2Z.id. apply nth_middle. }
    cbn [OsPath.skip_leading_dots]. rewrite Hidx. simpl negb. cbn iota.
    destruct (Z.of_nat (length D) - 1 <? Z.of_nat (length D + (3 + (length name + length sa))))
      eqn:E; [| apply Z.ltb_ge in E; lia].
    cbn [andb snd]. unfold Py.slice_from. rewrite Nat2Z.id.
    replace (D ++ Tempfile.template ++ name ++ sa ++ "."%char :: sb)
      with ((D ++ Tempfile.template ++ name ++ sa) ++ "."%char :: sb)
      by (rewrite <- !app_assoc; reflexivity).
    apply drop_app_length'. rewrite !length_app. reflexivity.
  - rewrite last_extension_nodot by exact Hin.
    assert (HB2 : ~ In "."%char (Tempfile.template ++ name ++ suf)).
    { rewrite !in_app_iff. intros [H | [H | H]]; try contradiction.
      vm_compute in H. intuition discriminate. }
    assert (Hdot : Py.rfind (D ++ Tempfile.template ++ name ++ suf) "."
                   < Z.of_nat (length D)).
    { unfold Py.rfind. rewrite rfind_from_app_notin by exact HB2.
      destruct HD as [-> | [D' ->]]; [simpl; lia |].
      rewrite rfind_from_app_notin by (vm_compute; intuition discriminate).
      rewrite length_app. simpl.
      destruct (rfind_from_bound "." D' 0 ltac:(lia)) as [-> | H]; lia. }
    destruct (Z.of_nat (length D) - 1 <? Py.rfind (D ++ Tempfile.template ++ name ++ suf) ".")
      eqn:E; [apply Z.ltb_lt in E; lia |].
    reflexivity.
Qed.

End SplitExt.

Section TempPath.

Variable rt : runtime.

(** Joining a directory and a name that starts with [tmp]: the name
    follows a directory part that is empty or ends in a separator. *)
Lemma join_tmp (dir x : pystr) :
  exists D, OsPath.join dir (Tempfile.template ++ x) = D ++ Tempfile.template ++ x
            /\ (D = [] \/ exists D', D = D' ++ ["/"%char]).
Proof.
  unfold OsPath.join. change (Py.startswith (Tempfile.template ++ x) "/") with false.
  cbn iota. unfold Py.eqb. destruct dir as [|d dir].
  - exists []. split; [reflexivity | left; reflexivity].
  - rewrite bool_decide_eq_false_2 by discriminate. simpl orb.
    destruct (Py.endswith (d :: dir) "/") eqn:E.
    + exists (d :: dir). split; [reflexivity | right].
      unfold Py.endswith in E.
      destruct (rev (d :: dir)) as [|y r] eqn:Hr; [discriminate |].
      apply Ascii.eqb_eq in E. subst y. exists (rev r).
      rewrite <- (rev_involutive (d :: dir)), Hr. reflexivity.
    + exists ((d :: dir) ++ ["/"%char]). split.
      * rewrite <- app_assoc. reflexivity.
      * right. exists (d :: dir). reflexivity.
Qed.

(** The flattened key has no separator. *)
Lemma replace_no_sep (key : pystr) : ~ In "/"%char (Py.replace "/" "-" key).
Proof.
  unfold Py.replace. intros H. apply in_map_iff in H. destruct H as [c [Hc _]].
  destruct (Ascii.eqb c "/") eqn:E; [discriminate |].
  apply Ascii.eqb_neq in E. congruence.
Qed.

(** Flattening keeps the ending [.gz], and creates none. *)
Lemma replace_suffix_gz (key : pystr) :
  str ".gz" `suffix_of` Py.replace "/" "-" key <-> str ".gz" `suffix_of` key.
Proof.
  assert (Hf : forall c x : ascii,
             x <> "-"%char ->
             (if Ascii.eqb c "/" then "-"%char else c) = x -> c = x).
  { intros c x Hx. destruct (Ascii.eqb c "/"); congruence. }
  split.
  - intros [k Hk]. unfold Py.replace in Hk.
    apply map_eq_app in Hk. destruct Hk as [k1 [k2 [-> [_ H2]]]].
    exists k1. f_equal.
    destruct k2 as [|c1 [|c2 [|c3 [|c4 k2]]]]; try discriminate.
    simpl in H2. injection H2 as H1 H2 H3.
    apply Hf in H1, H2, H3; try discriminate. subst. reflexivity.
  - intros [k ->]. exists (Py.replace "/" "-" k).
    unfold Py.replace. rewrite map_app. reflexivity.
Qed.

(** The path [_mkstemp_inner] settles on: a candidate name between the
    prefix and the suffix, under the directory, and not in use. *)
Lemma mkstemp_inner_path (files : gmap pystr pystr) (dir pre suf : pystr)
    (candidates : list pystr) (file : pystr) (rest : list pystr) :
  Tempfile._mkstemp_inner files dir pre suf candidates = Some (file, rest) ->
  exists name, In name candidates
               /\ file = OsPath.join dir (pre ++ name ++ suf)
               /\ files !! file = None.
Proof.
  induction candidates as [|n ns IH]; simpl; [discriminate |].
  destruct (files !! OsPath.join dir (pre ++ n ++ suf)) eqn:E.
  - intros H. destruct (IH H) as [name [Hin Hrest]]. exists name. auto.
  - intros [= <- <-]. exists n. auto.
Qed.

(** A path returned by [_download_s3_object] was drawn by [mkstemp]
    for the flattened key. *)
Lemma download_path (region : pyval) (bucket key : pystr) (size : Z)
    (w : world) (path : pystr) :
  snd (_download_s3_object rt region bucket key size w) = inr path ->
  exists rest,
    Tempfile._mkstemp_inner (fs w) (tmpdir rt) Tempfile.template
      (Py.replace "/" "-" key) (names w) = Some (path, rest).
Proof.
  unfold _download_s3_object.
  destruct (128 <? size / 1024 / 1024); [discriminate |].
  unfold bind, LOGGER, Tempfile.mkstemp, download_fileobj, ret. simpl.
  destruct (Tempfile._mkstemp_inner _ _ _ _ _) as [[file rest]|]; simpl; [| discriminate].
  destruct (s3_get rt region bucket key); simpl; [| discriminate].
  intros [= <-]. exists rest. reflexivity.
Qed.

Lemma characters_no_sep_no_dot (name : pystr) :
  Forall (fun c => In c Tempfile.characters) name ->
  ~ In "/"%char name /\ ~ In "."%char name.
Proof.
  intros H. rewrite Forall_forall in H.
  split; intros Hin; apply list_elem_of_In in Hin; apply H in Hin;
    vm_compute in Hin; intuition discriminate.
Qed.

(** Candidate names over the alphabet of [tempfile], by a check. *)
Lemma candidates_check (ns : list pystr) :
  forallb (fun name =>
             forallb (fun c => existsb (Ascii.eqb c) Tempfile.characters) name) ns = true ->
  Forall (fun name => Forall (fun c => In c Tempfile.characters) name) ns.
Proof.
  intros H. rewrite forallb_forall in H.
  apply Forall_forall. intros name Hname. apply list_elem_of_In in Hname.
  specialize (H name Hname). rewrite forallb_forall in H.
  apply Forall_forall. intros c Hc. apply list_elem_of_In in Hc.
  specialize (H c Hc). apply existsb_exists in H.
  destruct H as [x [Hx E]]. apply Ascii.eqb_eq in E. subst x. exact Hx.
Qed.

End TempPath.

(** C10 (amended).  For every object key, the temporary path returned by
    the download ends with the key in which every ['/'] is replaced by
    ['-'] (the random name comes before this suffix); the extension
    [os.path.splitext] finds on the path is the part of the flattened key
    from its last dot on, which is [.gz] exactly when the key ends in
    [.gz]; consequently [read_s3_file] reads the local file through
    [gzip] exactly when the remote key ends in [.gz]. *)
Theorem C10_gz_detection_follows_key (rt : runtime) (region : pyval)
    (bucket key : pystr) (size : Z) (w : world) (path : pystr) :
  Forall (fun name => Forall (fun c => In c Tempfile.characters) name) (names w) ->
  snd (_download_s3_object rt region bucket key size w) = inr path ->
  Py.replace "/" "-" key `suffix_of` path
  /\ snd (OsPath.splitext path) = Spec.last_extension (Py.replace "/" "-" key)
  /\ (snd (OsPath.splitext path) = str ".gz" <-> str ".gz" `suffix_of` key)
  /\ forall data,
       open_lines rt path data
       = if bool_decide (str ".gz" `suffix_of` key) then gzip_lines rt data
         else plain_lines data.
Proof.
  intros Hnames Hres.
  destruct (download_path rt region bucket key size w path Hres) as [rest Hmk].
  destruct (mkstemp_inner_path _ _ _ _ _ _ _ Hmk) as [name [Hin [Hpath _]]].
  rewrite Forall_forall in Hnames.
  destruct (characters_no_sep_no_dot name (Hnames name (proj2 (list_elem_of_In _ _) Hin)))
    as [Hn1 Hn2].
  destruct (join_tmp (tmpdir rt) (name ++ Py.replace "/" "-" key)) as [D [HD Hshape]].
  rewrite HD in Hpath.
  assert (Hext : snd (OsPath.splitext path) = Spec.last_extension (Py.replace "/" "-" key)).
  { rewrite Hpath. apply splitext_tmp_path; try assumption. apply replace_no_sep. }
  assert (Hgz : snd (OsPath.splitext path) = str ".gz" <-> str ".gz" `suffix_of` key).
  { rewrite Hext, last_extension_gz. apply replace_suffix_gz. }
  split; [| split; [exact Hext | split; [exact Hgz |]]].
  - exists (D ++ Tempfile.template ++ name). rewrite Hpath, <- !app_assoc. reflexivity.
  - intros data. unfold open_lines.
    destruct (OsPath.splitext path) as [root ext]. simpl in Hgz. unfold Py.eqb.
    destruct (decide (ext = str ".gz")) as [He | He].
    + rewrite bool_decide_eq_true_2 by exact He.
      rewrite bool_decide_eq_true_2 by (apply Hgz; exact He). reflexivity.
    + rewrite bool_decide_eq_false_2 by exact He.
      rewrite bool_decide_eq_false_2 by (intros H; apply He, Hgz; exact H). reflexivity.
Qed.

Lemma C10_gz_detection_follows_key_witness :
  let rt := demo_runtime (str "body") in
  let w := demo_world [] [str "abc123"] in
  let key := str "logs/2024/file.gz" in
  let path := str "/tmp/tmpabc123logs-2024-file.gz" in
  Py.replace "/" "-" key `suffix_of` path
  /\ snd (OsPath.splitext path) = Spec.last_extension (Py.replace "/" "-" key)
  /\ (snd (OsPath.splitext path) = str ".gz" <-> str ".gz" `suffix_of` key)
  /\ forall data,
       open_lines rt path data
       = if bool_decide (str ".gz" `suffix_of` key) then gzip_lines rt data
         else plain_lines data.
Proof.
  intros rt w key path.
  apply (C10_gz_detection_follows_key rt PyNone (str "bucket") key 2048 w path).
  - apply candidates_check. vm_compute. reflexivity.
  - vm_compute. reflexivity.
Defined.

(** C10 as stated fails: the extension of the temporary path need not be
    that of the key.  The key [a.b/c] has no extension, and the text after
    its last dot is [.b/c]; its temporary path has the extension
    [.b-c]. *)
Lemma C10_path_extension_differs_from_key :
  let rt := demo_runtime (str "body") in
  let w := demo_world [] [str "abc123"] in
  let key := str "a.b/c" in
  let path := str "/tmp/tmpabc123a.b-c" in
  snd (_download_s3_object rt PyNone (str "bucket") key 2048 w) = inr path
  /\ snd (OsPath.splitext path) = str ".b-c"
  /\ snd (OsPath.splitext key) = []
  /\ Spec.last_extension key = str ".b/c"
  /\ snd (OsPath.splitext path) <> snd (OsPath.splitext key)
  /\ snd (OsPath.splitext path) <> Spec.last_extension key.
Proof. vm_compute. repeat split; discriminate. Qed.

(** * Further properties of the pre-parsers *)

(** ** The Kinesis and SNS adapters *)

(** X1.  [pre_parse_sns] returns the message of the record as it is, and
    leaves one debug record with the two identifiers. *)
Theorem sns_message_returned_unmodified (raw_record : pyval) (w : world)
    (MessageId EventSubscriptionArn Message : pyval) :
  Py.getpath raw_record [str "Sns"; str "MessageId"] = inr MessageId ->
  Py.getitem raw_record (str "EventSubscriptionArn") = inr EventSubscriptionArn ->
  Py.getpath raw_record [str "Sns"; str "Message"] = inr Message ->
  pre_parse_sns raw_record w
  = (add_log (LogRecord DEBUG
                (str "Pre-parsing record from SNS. MessageId: %s, EventSubscriptionArn: %s")
                [MessageId; EventSubscriptionArn]) w,
     inr Message).
Proof.
  intros H1 H2 H3. unfold pre_parse_sns, bind, lift, LOGGER.
  rewrite H1, H2, H3. reflexivity.
Qed.

Lemma sns_message_returned_unmodified_witness :
  let raw_record :=
    PyDict [(str "EventSubscriptionArn", PyStr (str "arn:aws:sns:topic:sub"));
            (str "Sns", PyDict [(str "MessageId", PyStr (str "m-1"));
                                (str "Message", PyStr (str "  raw text "))])] in
  let w := demo_world [] [] in
  pre_parse_sns raw_record w
  = (add_log (LogRecord DEBUG
                (str "Pre-parsing record from SNS. MessageId: %s, EventSubscriptionArn: %s")
                [PyStr (str "m-1"); PyStr (str "arn:aws:sns:topic:sub")]) w,
     inr (PyStr (str "  raw text "))).
Proof.
  intros raw_record w.
  apply (sns_message_returned_unmodified raw_record w).
  - vm_compute. reflexivity.
  - vm_compute. reflexivity.
  - vm_compute. reflexivity.
Defined.

(** X2.  The identifiers are read for the log before the message: a
    record without [MessageId] or without [EventSubscriptionArn] fails,
    whatever its message, and nothing is logged. *)
Theorem sns_missing_identifier_fails (raw_record : pyval) (w : world) :
  (exists e, Py.getpath raw_record [str "Sns"; str "MessageId"] = inl e)
  \/ (exists e, Py.getitem raw_record (str "EventSubscriptionArn") = inl e) ->
  exists e, (e = KeyError \/ e = TypeError) /\ pre_parse_sns raw_record w = (w, inl e).
Proof.
  intros H. unfold pre_parse_sns, bind, lift.
  destruct (Py.getpath raw_record [str "Sns"; str "MessageId"]) as [e1 | m] eqn:E1.
  { exists e1. split; [eapply getpath_error; exact E1 | reflexivity]. }
  destruct (Py.getitem raw_record (str "EventSubscriptionArn")) as [e2 | a] eqn:E2.
  { exists e2. split; [eapply getitem_error; exact E2 | reflexivity]. }
  exfalso. destruct H as [[e H] | [e H]]; discriminate.
Qed.

Lemma sns_missing_identifier_fails_witness :
  let raw_record :=
    PyDict [(str "EventSubscriptionArn", PyStr (str "arn:aws:sns:topic:sub"));
            (str "Sns", PyDict [(str "Message", PyStr (str "text"))])] in
  let w := demo_world [] [] in
  exists e, (e = KeyError \/ e = TypeError) /\ pre_parse_sns raw_record w = (w, inl e).
Proof.
  intros raw_record w.
  apply (sns_missing_identifier_fails raw_record w).
  left. exists KeyError. vm_compute. reflexivity.
Defined.

(** X3.  [pre_parse_kinesis] reads [eventID] and [eventSourceARN] for the
    log before it decodes: a record without one of them fails, also with
    a valid payload, and nothing is logged. *)
Theorem kinesis_missing_identifier_fails (raw_record : pyval) (w : world) :
  (exists e, Py.getitem raw_record (str "eventID") = inl e)
  \/ (exists e, Py.getitem raw_record (str "eventSourceARN") = inl e) ->
  exists e, (e = KeyError \/ e = TypeError) /\ pre_parse_kinesis raw_record w = (w, inl e).
Proof.
  intros H. unfold pre_parse_kinesis, bind, lift.
  destruct (Py.getitem raw_record (str "eventID")) as [e1 | m] eqn:E1.
  { exists e1. split; [eapply getitem_error; exact E1 | reflexivity]. }
  destruct (Py.getitem raw_record (str "eventSourceARN")) as [e2 | a] eqn:E2.
  { exists e2. split; [eapply getitem_error; exact E2 | reflexivity]. }
  exfalso. destruct H as [[e H] | [e H]]; discriminate.
Qed.

Lemma kinesis_missing_identifier_fails_witness :
  let raw_record :=
    PyDict [(str "eventID", PyStr (str "shardId-000:1"));
            (str "kinesis", PyDict [(str "data", PyStr (str "aGVsbG8="))])] in
  let w := demo_world [] [] in
  exists e, (e = KeyError \/ e = TypeError) /\ pre_parse_kinesis raw_record w = (w, inl e).
Proof.
  intros raw_record w.
  apply (kinesis_missing_identifier_fails raw_record w).
  right. exists KeyError. vm_compute. reflexivity.
Defined.

(** X4.  The two adapters touch nothing but the log: whatever the record,
    the files, the calls to S3 and the candidate names are as before, and
    the log grew by at most one record, at debug level. *)
Theorem adapters_touch_only_the_log (raw_record : pyval) (w : world) :
  let wk := fst (pre_parse_kinesis raw_record w) in
  let ws := fst (pre_parse_sns raw_record w) in
  (fs wk = fs w /\ s3_calls wk = s3_calls w /\ names wk = names w
   /\ (logs wk = logs w
       \/ exists r, levelname r = DEBUG /\ logs wk = logs w ++ [r]))
  /\ (fs ws = fs w /\ s3_calls ws = s3_calls w /\ names ws = names w
      /\ (logs ws = logs w
          \/ exists r, levelname r = DEBUG /\ logs ws = logs w ++ [r])).
Proof.
  intros wk ws. subst wk ws. split.
  - unfold pre_parse_kinesis, bind, lift, LOGGER.
    destruct (Py.getitem raw_record (str "eventID"));
      [cbn [fst]; repeat split; left; reflexivity |].
    destruct (Py.getitem raw_record (str "eventSourceARN"));
      [cbn [fst]; repeat split; left; reflexivity |].
    destruct (Py.getpath raw_record [str "kinesis"; str "data"]); cbn [fst];
      repeat split; right; eexists; (split; [| reflexivity]); reflexivity.
  - unfold pre_parse_sns, bind, lift, LOGGER.
    destruct (Py.getpath raw_record [str "Sns"; str "MessageId"]);
      [cbn [fst]; repeat split; left; reflexivity |].
    destruct (Py.getitem raw_record (str "EventSubscriptionArn"));
      [cbn [fst]; repeat split; left; reflexivity |].
    destruct (Py.getpath raw_record [str "Sns"; str "Message"]); cbn [fst];
      repeat split; right; eexists; (split; [| reflexivity]); reflexivity.
Qed.

(** ** The download *)

Section DownloadFacts.

Variable rt : runtime.

(** The world after a download that passed the size check, by the
    outcome of [mkstemp] and of the client. *)
Lemma download_unfold (region : pyval) (bucket key : pystr) (size : Z) (w : world) :
  size < 129 * 1024 * 1024 ->
  let r := _download_s3_object rt region bucket key size w in
  match Tempfile._mkstemp_inner (fs w) (tmpdir rt) Tempfile.template
          (Py.replace "/" "-" key) (names w) with
  | None =>
      snd r = inl IOError /\ fs (fst r) = fs w /\ s3_calls (fst r) = s3_calls w
  | Some (file, rest) =>
      s3_calls (fst r) = s3_calls w ++ [(region, bucket, key)]
      /\ names (fst r) = rest
      /\ match s3_get rt region bucket key with
         | Some body => snd r = inr file /\ fs (fst r) = <[file := body]> (fs w)
         | None =>
             snd r = inl ClientError
             /\ fs (fst r) = <[file := s3_partial rt region bucket key]> (fs w)
         end
  end.
Proof.
  intros Hsize r. subst r.
  assert (Hc : (128 <? size / 1024 / 1024) = false).
  { destruct (128 <? size / 1024 / 1024) eqn:E; [| reflexivity].
    apply size_check_threshold in E. lia. }
  unfold _download_s3_object. rewrite Hc.
  unfold bind, LOGGER, Tempfile.mkstemp, download_fileobj, ret. simpl.
  destruct (Tempfile._mkstemp_inner _ _ _ _ _) as [[file rest]|]; simpl.
  - destruct (s3_get rt region bucket key) as [body|]; simpl;
      repeat split; rewrite ?insert_insert_eq; reflexivity.
  - repeat split.
Qed.

Lemma download_ok_size (region : pyval) (bucket key : pystr) (size : Z) (w : world)
    (path : pystr) :
  snd (_download_s3_object rt region bucket key size w) = inr path ->
  size < 129 * 1024 * 1024.
Proof.
  intros H. destruct (Z_lt_ge_dec size (129 * 1024 * 1024)) as [Hlt | Hge]; [exact Hlt |].
  rewrite size_error_world in H by lia. discriminate.
Qed.

(** What a successful download leaves: the path was free, it now holds
    the body of the object, and the other files are as before. *)
Lemma download_ok_files (region : pyval) (bucket key : pystr) (size : Z) (w : world)
    (path : pystr) :
  snd (_download_s3_object rt region bucket key size w) = inr path ->
  fs w !! path = None
  /\ exists body, s3_get rt region bucket key = Some body
                  /\ fs (fst (_download_s3_object rt region bucket key size w))
                     = <[path := body]> (fs w).
Proof.
  intros H.
  pose proof (download_unfold region bucket key size w (download_ok_size _ _ _ _ _ _ H)) as U.
  simpl in U.
  destruct (Tempfile._mkstemp_inner _ _ _ _ _) as [[file rest]|] eqn:Hmk.
  - destruct U as [_ [_ U]].
    destruct (mkstemp_inner_path _ _ _ _ _ _ _ Hmk) as [name [_ [_ Hfree]]].
    destruct (s3_get rt region bucket key) as [body|]; destruct U as [U1 U2].
    + rewrite H in U1. injection U1 as ->. split; [exact Hfree |].
      exists body. split; [reflexivity | exact U2].
    + rewrite H in U1. discriminate.
  - destruct U as [U _]. rewrite H in U. discriminate.
Qed.

End DownloadFacts.

(** X5.  The size check refuses exactly the sizes from 129 MiB on, and a
    refused download had no effect at all: no log record, no file, no
    call. *)
Theorem size_error_exactly_from_129_MiB (rt : runtime) (region : pyval)
    (bucket key : pystr) (size : Z) (w : world) :
  (snd (_download_s3_object rt region bucket key size w) = inl S3ObjectSizeError
   <-> 129 * 1024 * 1024 <= size)
  /\ (snd (_download_s3_object rt region bucket key size w) = inl S3ObjectSizeError ->
      fst (_download_s3_object rt region bucket key size w) = w).
Proof.
  split; [apply size_error_iff |].
  intros H. apply size_error_iff in H. rewrite size_error_world by exact H. reflexivity.
Qed.

(** X6.  When the client fails, [_download_s3_object] raises its error
    after the call was made and leaves the temporary file it created
    behind: the path was free before, and afterwards it exists and holds
    what the client had written before it failed. *)
Theorem failed_download_leaves_file_behind (rt : runtime) (region : pyval)
    (bucket key : pystr) (size : Z) (w : world) (file : pystr) (rest : list pystr) :
  size < 129 * 1024 * 1024 ->
  Tempfile._mkstemp_inner (fs w) (tmpdir rt) Tempfile.template
    (Py.replace "/" "-" key) (names w) = Some (file, rest) ->
  s3_get rt region bucket key = None ->
  let r := _download_s3_object rt region bucket key size w in
  snd r = inl ClientError
  /\ fs w !! file = None
  /\ fs (fst r) !! file = Some (s3_partial rt region bucket key)
  /\ (forall p, p <> file -> fs (fst r) !! p = fs w !! p)
  /\ s3_calls (fst r) = s3_calls w ++ [(region, bucket, key)].
Proof.
  intros Hsize Hmk Hget r. subst r.
  pose proof (download_unfold rt region bucket key size w Hsize) as U. simpl in U.
  rewrite Hmk, Hget in U. destruct U as [U1 [_ [U2 U3]]].
  destruct (mkstemp_inner_path _ _ _ _ _ _ _ Hmk) as [name [_ [_ Hfree]]].
  repeat split; try assumption.
  - rewrite U3. apply lookup_insert_eq.
  - intros p Hp. rewrite U3. apply lookup_insert_ne. congruence.
Qed.

Lemma failed_download_leaves_file_behind_witness :
  let rt := demo_failing_runtime (str "first bytes") in
  let w := demo_world [(str "/tmp/other", str "kept")] [str "abc123"] in
  let file := str "/tmp/tmpabc123logs-app.log" in
  let r := _download_s3_object rt PyNone (str "bucket") (str "logs/app.log") 2048 w in
  snd r = inl ClientError
  /\ fs w !! file = None
  /\ fs (fst r) !! file = Some (str "first bytes")
  /\ (forall p, p <> file -> fs (fst r) !! p = fs w !! p)
  /\ s3_calls (fst r) = s3_calls w ++ [(PyNone, str "bucket", str "logs/app.log")].
Proof.
  intros rt w file.
  apply (failed_download_leaves_file_behind rt PyNone (str "bucket") (str "logs/app.log")
           2048 w file []).
  - lia.
  - vm_compute. reflexivity.
  - reflexivity.
Defined.

(** X7.  A successful download creates one file and changes no other:
    the returned path did not exist before, it holds the body of the
    object, and every other path has the contents it had. *)
Theorem download_creates_one_fresh_file (rt : runtime) (region : pyval)
    (bucket key : pystr) (size : Z) (w : world) (path : pystr) :
  snd (_download_s3_object rt region bucket key size w) = inr path ->
  let w' := fst (_download_s3_object rt region bucket key size w) in
  fs w !! path = None
  /\ (exists body, s3_get rt region bucket key = Some body /\ fs w' !! path = Some body)
  /\ forall p, p <> path -> fs w' !! p = fs w !! p.
Proof.
  intros H w'. subst w'.
  destruct (download_ok_files rt region bucket key size w path H) as [Hfree [body [Hget Hfs]]].
  split; [exact Hfree |]. split.
  - exists body. split; [exact Hget |]. rewrite Hfs. apply lookup_insert_eq.
  - intros p Hp. rewrite Hfs. apply lookup_insert_ne. congruence.
Qed.

Lemma download_creates_one_fresh_file_witness :
  let rt := demo_runtime (str "body") in
  let w := demo_world [(str "/tmp/other", str "kept")] [str "abc123"] in
  let path := str "/tmp/tmpabc123logs-app.log" in
  let w' := fst (_download_s3_object rt PyNone (str "bucket") (str "logs/app.log") 2048 w) in
  fs w !! path = None
  /\ (exists body, s3_get rt PyNone (str "bucket") (str "logs/app.log") = Some body
                   /\ fs w' !! path = Some body)
  /\ forall p, p <> path -> fs w' !! p = fs w !! p.
Proof.
  intros rt w path.
  apply (download_creates_one_fresh_file rt PyNone (str "bucket") (str "logs/app.log")
           2048 w path).
  vm_compute. reflexivity.
Defined.

(** X8.  When every candidate name is in use, the download raises
    [IOError] before any call to S3, and no file is changed. *)
Theorem no_usable_name_no_call (rt : runtime) (region : pyval)
    (bucket key : pystr) (size : Z) (w : world) :
  size < 129 * 1024 * 1024 ->
  Forall (fun name =>
            is_Some (fs w !! OsPath.join (tmpdir rt)
                               (Tempfile.template ++ name ++ Py.replace "/" "-" key)))
    (names w) ->
  let r := _download_s3_object rt region bucket key size w in
  snd r = inl IOError /\ fs (fst r) = fs w /\ s3_calls (fst r) = s3_calls w.
Proof.
  intros Hsize Hused r. subst r.
  assert (Hmk : Tempfile._mkstemp_inner (fs w) (tmpdir rt) Tempfile.template
                  (Py.replace "/" "-" key) (names w) = None).
  { revert Hused. generalize (names w) as ns.
    induction ns as [|n ns IH]; intros Hused; [reflexivity |].
    inversion Hused as [|? ? [x Hx] Hrest]; subst.
    cbn [Tempfile._mkstemp_inner]. rewrite Hx. apply IH. exact Hrest. }
  pose proof (download_unfold rt region bucket key size w Hsize) as U. simpl in U.
  rewrite Hmk in U. exact U.
Qed.

Lemma no_usable_name_no_call_witness :
  let rt := demo_runtime (str "body") in
  let w := demo_world [(str "/tmp/tmpabc123logs-app.log", str "in use")] [str "abc123"] in
  let r := _download_s3_object rt PyNone (str "bucket") (str "logs/app.log") 2048 w in
  snd r = inl IOError /\ fs (fst r) = fs w /\ s3_calls (fst r) = s3_calls w.
Proof.
  intros rt w.
  apply (no_usable_name_no_call rt PyNone (str "bucket") (str "logs/app.log") 2048 w).
  - lia.
  - constructor; [| constructor].
    exists (str "in use"). vm_compute. reflexivity.
Defined.

(** X9.  Two downloads in a row never return the same path, whatever the
    keys: the second one draws a name that is not in use, and the file of
    the first one is. *)
Theorem successive_downloads_distinct_paths (rt : runtime)
    (region region' : pyval) (bucket key bucket' key' : pystr) (size size' : Z)
    (w : world) (path path' : pystr) :
  snd (_download_s3_object rt region bucket key size w) = inr path ->
  snd (_download_s3_object rt region' bucket' key' size'
         (fst (_download_s3_object rt region bucket key size w))) = inr path' ->
  path <> path'.
Proof.
  intros H1 H2 ->.
  destruct (download_ok_files rt region bucket key size w path' H1) as [_ [body [_ Hfs]]].
  destruct (download_ok_files rt region' bucket' key' size' _ path' H2) as [Hfree _].
  rewrite Hfs, lookup_insert_eq in Hfree. discriminate.
Qed.

Lemma successive_downloads_distinct_paths_witness :
  let rt := demo_runtime (str "body") in
  let w := demo_world [] [str "abc123"; str "abc123"; str "xyz789"] in
  str "/tmp/tmpabc123k.log" <> str "/tmp/tmpxyz789k.log".
Proof.
  intros rt w.
  apply (successive_downloads_distinct_paths rt PyNone PyNone (str "b") (str "k.log")
           (str "b") (str "k.log") 10 10 w).
  - vm_compute. reflexivity.
  - vm_compute. reflexivity.
Defined.

(** X10.  A download followed by a complete read of the returned path
    gives the lines of the object, stripped and numbered, and puts the
    files back as they were before the download: the temporary file is
    the only trace, and it is gone. *)
Theorem download_then_read_restores_files (rt : runtime) (region : pyval)
    (bucket key : pystr) (size : Z) (w : world) (path body : pystr)
    (lines : list pystr) (fuel : nat) :
  snd (_download_s3_object rt region bucket key size w) = inr path ->
  s3_get rt region bucket key = Some body ->
  open_lines rt path body = (lines, None) ->
  (length lines < fuel)%nat ->
  let w' := fst (_download_s3_object rt region bucket key size w) in
  let r := consume fuel rt (GenCreated path) w' in
  yielded r = Py.enumerate 0 (map Py.rstrip lines)
  /\ ending r = Some StopIteration
  /\ fs (final_world r) = fs w.
Proof.
  intros Hres Hget Hopen Hfuel w' r. subst w' r.
  destruct (download_ok_files rt region bucket key size w path Hres) as [Hfree [b [Hb Hfs]]].
  rewrite Hget in Hb. injection Hb as <-.
  rewrite (consume_created rt path body lines None fuel _
             ltac:(rewrite Hfs; apply lookup_insert_eq) Hopen Hfuel).
  simpl. repeat split.
  rewrite cleanup_fs, Hfs, delete_insert_eq. apply delete_id. exact Hfree.
Qed.

Lemma download_then_read_restores_files_witness :
  let body := demo_text ["one "; "two"] in
  let rt := demo_runtime body in
  let w := demo_world [(str "/tmp/other", str "kept")] [str "abc123"] in
  let path := str "/tmp/tmpabc123logs-app.log" in
  let w' := fst (_download_s3_object rt PyNone (str "bucket") (str "logs/app.log") 2048 w) in
  let r := consume 3 rt (GenCreated path) w' in
  yielded r = Py.enumerate 0 (map Py.rstrip (Py.readlines body))
  /\ ending r = Some StopIteration
  /\ fs (final_world r) = fs w.
Proof.
  intros body rt w path.
  apply (download_then_read_restores_files rt PyNone (str "bucket") (str "logs/app.log")
           2048 w path body (Py.readlines body) 3).
  - vm_compute. reflexivity.
  - reflexivity.
  - vm_compute. reflexivity.
  - vm_compute. lia.
Defined.

(** ** The generator *)

(** X11.  A step that yields a line changes nothing in the world: the
    file stays as it is until the step that ends the iteration, and the
    generator is suspended with the next index. *)
Theorem yield_steps_leave_world (rt : runtime) (g g' : gen_state) (w w' : world)
    (num : nat) (line : pystr) :
  gen_next rt g w = (w', Yield num line, g') ->
  w' = w
  /\ exists path rest failure, g' = GenSuspended path rest failure (S num).
Proof.
  assert (Hloop : forall path lines failure n,
             loop_step path lines failure n w = (w', Yield num line, g') ->
             w' = w /\ exists p rest f, g' = GenSuspended p rest f (S num)).
  { intros path lines failure n. unfold loop_step.
    destruct lines as [|l rest]; [destruct failure; discriminate |].
    intros [= <- <- _ <-]. split; [reflexivity |]. eauto. }
  destruct g as [path | path lines failure n |]; simpl.
  - destruct (fs w !! path) as [data|]; [| discriminate].
    destruct (open_lines rt path data) as [lines failure]. apply Hloop.
  - apply Hloop.
  - discriminate.
Qed.

Lemma yield_steps_leave_world_witness :
  let rt := demo_runtime [] in
  let path := str "/tmp/tmpabc123logs-app.log" in
  let w := demo_world [(path, demo_text ["one"; "two"])] [] in
  w = w
  /\ exists p rest failure,
       GenSuspended path [str "two" ++ ["010"%char]] None 1
       = GenSuspended p rest failure 1.
Proof.
  intros rt path w.
  apply (yield_steps_leave_world rt (GenCreated path) _ w w 0 (str "one")).
  vm_compute. reflexivity.
Defined.

Section ReadFootprint.

Variable rt : runtime.

Lemma same_but_file_refl (path : pystr) (w : world) : Spec.same_but_file path w w.
Proof. repeat split. Qed.

Lemma same_but_file_cleanup (path : pystr) (w : world) :
  Spec.same_but_file path w (cleanup path w).
Proof.
  split; [apply cleanup_calls |]. split.
  - unfold cleanup. destruct (negb _); reflexivity.
  - intros p Hp. rewrite cleanup_fs. apply lookup_delete_ne. congruence.
Qed.

Lemma consume_suspended_footprint (path : pystr) (fuel : nat) :
  forall (lines : list pystr) (failure : option exn) (num : nat) (w : world),
    Spec.same_but_file path w
      (final_world (consume fuel rt (GenSuspended path lines failure num) w)).
Proof.
  induction fuel as [|fuel IH]; intros lines failure num w; [apply same_but_file_refl |].
  cbn [consume gen_next]. unfold loop_step.
  destruct lines as [|l rest].
  - destruct failure; simpl; [apply same_but_file_refl | apply same_but_file_cleanup].
  - simpl. apply IH.
Qed.

End ReadFootprint.

(** X12.  Reading touches one file only: however far the consumer gets
    and however the iteration ends, the calls to S3 and the candidate
    names are as before, and every path other than the one read has the
    contents it had. *)
Theorem read_touches_only_its_file (rt : runtime) (path : pystr) (fuel : nat) (w : world) :
  Spec.same_but_file path w (final_world (consume fuel rt (GenCreated path) w)).
Proof.
  destruct fuel as [|fuel]; [apply same_but_file_refl |].
  cbn [consume gen_next].
  destruct (fs w !! path) as [data|]; [| apply same_but_file_refl].
  destruct (open_lines rt path data) as [lines failure].
  pose proof (consume_suspended_footprint rt path (S fuel) lines failure 0 w) as H.
  cbn [consume gen_next] in H. exact H.
Qed.

(** X13.  A complete read that ends well adds exactly one record to the
    log, the debug message that the temporary file was removed; a read
    that raises adds none. *)
Theorem read_log (rt : runtime) (w : world) (path data : pystr)
    (lines : list pystr) (failure : option exn) (fuel : nat) :
  fs w !! path = Some data ->
  open_lines rt path data = (lines, failure) ->
  (length lines < fuel)%nat ->
  logs (final_world (consume fuel rt (GenCreated path) w))
  = match failure with
    | None => logs w ++ [LogRecord DEBUG (str "Removed temp file: %s") [PyStr path]]
    | Some _ => logs w
    end.
Proof.
  intros Hfs Hopen Hfuel.
  rewrite (consume_created rt path data lines failure fuel w Hfs Hopen Hfuel).
  destruct failure; simpl; [reflexivity | apply cleanup_logs].
Qed.

Lemma read_log_witness :
  let rt := demo_runtime [] in
  let path := str "/tmp/tmpabc123logs-app.log" in
  let w := demo_world [(path, demo_text ["one"; "two"])] [] in
  logs (final_world (consume 3 rt (GenCreated path) w))
  = logs w ++ [LogRecord DEBUG (str "Removed temp file: %s") [PyStr path]].
Proof.
  intros rt path w.
  apply (read_log rt w path (demo_text ["one"; "two"])
           (Py.readlines (demo_text ["one"; "two"])) None 3).
  - vm_compute. reflexivity.
  - vm_compute. reflexivity.
  - vm_compute. lia.
Defined.

(** The two parts [splitext] returns make up the path. *)
Lemma splitext_concat (p : pystr) :
  fst (OsPath.splitext p) ++ snd (OsPath.splitext p) = p.
Proof.
  unfold OsPath.splitext.
  destruct (_ && _); simpl; [apply take_drop | apply app_nil_r].
Qed.

(** X14.  The decompressor is used only for a path that ends in [.gz]:
    any other path is read as plain text, whatever the file holds. *)
Theorem path_not_ending_in_gz_is_read_plain (rt : runtime) (path data : pystr) :
  ~ str ".gz" `suffix_of` path ->
  open_lines rt path data = plain_lines data.
Proof.
  intros H. unfold open_lines.
  pose proof (splitext_concat path) as Hc.
  destruct (OsPath.splitext path) as [root ext]. simpl in Hc.
  unfold Py.eqb. rewrite bool_decide_eq_false_2; [reflexivity |].
  intros ->. apply H. exists root. symmetry. exact Hc.
Qed.

Lemma path_not_ending_in_gz_is_read_plain_witness :
  let rt := demo_runtime [] in
  let data := GZIP_MAGIC ++ demo_text ["one"] in
  open_lines rt (str "/tmp/tmpabc123logs-app.gz.bak") data = plain_lines data.
Proof.
  intros rt data.
  apply (path_not_ending_in_gz_is_read_plain rt (str "/tmp/tmpabc123logs-app.gz.bak") data).
  apply (bool_decide_eq_false_1 _). vm_compute. reflexivity.
Defined.

(** ** Names in an S3 record *)

Section Names.

Lemma split_no_sep (sep : ascii) (s : pystr) : ~ In sep s -> Py.split sep s = [s].
Proof.
  induction s as [|c t IH]; intros H; [reflexivity |].
  simpl. destruct (Ascii.eqb c sep) eqn:E.
  - apply Ascii.eqb_eq in E. exfalso. apply H. left. exact E.
  - rewrite IH by (intros Hc; apply H; right; exact Hc). reflexivity.
Qed.

(** Without a percent sign there is nothing to decode. *)
Lemma unquote_no_percent (s : pystr) : ~ In "%"%char s -> Urllib.unquote s = s.
Proof. intros H. unfold Urllib.unquote. rewrite split_no_sep by exact H. reflexivity. Qed.

(** 7-bit strings are UTF-8. *)
Lemma utf8_valid_ascii (s : pystr) :
  Forall (fun c => ord c < 128) s -> Urllib.utf8_valid s = true.
Proof.
  induction 1 as [|c t Hc _ IH]; [reflexivity |].
  cbn [Urllib.utf8_valid]. apply Z.ltb_lt in Hc. rewrite Hc. exact IH.
Qed.


End Names.

(** X15.  Bucket names and keys made of 7-bit characters without a
    percent sign are taken as they are: the reference read from the
    record carries them unchanged (a ['+'] stays a ['+']). *)
Theorem plain_names_are_kept (rt : runtime) (raw_record : pyval) (w : world)
    (region : pyval) (name key : pystr) (size_v : pyval) (size : Z) :
  Py.getitem raw_record (str "awsRegion") = inr region ->
  Py.getpath raw_record [str "s3"; str "bucket"; str "name"] = inr (PyStr name) ->
  Py.getpath raw_record [str "s3"; str "object"; str "key"] = inr (PyStr key) ->
  Py.getpath raw_record [str "s3"; str "object"; str "size"] = inr size_v ->
  py_int rt size_v = inr size ->
  ~ In "%"%char name -> Forall (fun c => ord c < 128) name ->
  ~ In "%"%char key -> Forall (fun c => ord c < 128) key ->
  s3_reference rt raw_record w = (w, inr (region, name, key, size)).
Proof.
  intros Hregion Hname Hkey Hsize Hint Hn1 Hn2 Hk1 Hk2.
  unfold s3_reference, bind, lift, ret.
  rewrite Hregion, Hname. unfold unquote at 1.
  rewrite (unquote_no_percent name Hn1). unfold Urllib.decode_utf8 at 1.
  rewrite (utf8_valid_ascii name Hn2).
  rewrite Hkey. unfold unquote.
  rewrite (unquote_no_percent key Hk1). unfold Urllib.decode_utf8.
  rewrite (utf8_valid_ascii key Hk2).
  rewrite Hsize, Hint. reflexivity.
Qed.

Lemma plain_names_are_kept_witness :
  let rt := demo_runtime (str "body") in
  let w := demo_world [] [str "abc123"] in
  let raw_record := s3_record (str "my-bucket") (str "logs/a+b.log") (PyInt 2048) in
  s3_reference rt raw_record w
  = (w, inr (PyStr (str "us-east-1"), str "my-bucket", str "logs/a+b.log", 2048)).
Proof.
  intros rt w raw_record.
  apply (plain_names_are_kept rt raw_record w (PyStr (str "us-east-1"))
           (str "my-bucket") (str "logs/a+b.log") (PyInt 2048) 2048).
  - vm_compute. reflexivity.
  - vm_compute. reflexivity.
  - vm_compute. reflexivity.
  - vm_compute. reflexivity.
  - vm_compute. reflexivity.
  - apply (bool_decide_eq_false_1 _). vm_compute. reflexivity.
  - apply (bool_decide_eq_true_1 _). vm_compute. reflexivity.
  - apply (bool_decide_eq_false_1 _). vm_compute. reflexivity.
  - apply (bool_decide_eq_true_1 _). vm_compute. reflexivity.
Defined.


(** ** Payloads of Kinesis records *)

Section Base64Skipping.

Import Base64.

(** Masking a 7-bit character leaves it as it is. *)
Lemma chr_land_127 (c : ascii) : ord c <= 127 -> chr (Z.land (ord c) 127) = c.
Proof.
  pose proof (forall_ascii
    (fun c => (127 <? ord c) || Ascii.eqb (chr (Z.land (ord c) 127)) c)) as H.
  specialize (H ltac:(vm_compute; reflexivity) c). cbn beta in H.
  intros Hc. apply orb_prop in H. destruct H as [H | H].
  - apply Z.ltb_lt in H. lia.
  - apply Ascii.eqb_eq in H. exact H.
Qed.

(** The pad is not a skipped character. *)
Lemma skipped_not_pad (c : ascii) : skipped c = true -> Ascii.eqb c BASE64_PAD = false.
Proof.
  intros H. destruct (Ascii.eqb c BASE64_PAD) eqn:E; [| reflexivity].
  apply Ascii.eqb_eq in E. subst c. vm_compute in H. discriminate.
Qed.

Lemma find_valid_skip (c : ascii) (t : pystr) (num : Z) :
  skipped c = true ->
  binascii_find_valid (c :: t) num = binascii_find_valid t num.
Proof.
  intros H. cbn [binascii_find_valid].
  destruct (ord c <=? 127) eqn:E; [| reflexivity].
  apply Z.leb_le in E. rewrite (chr_land_127 c E).
  unfold skipped in H. apply orb_prop in H. destruct H as [H | H].
  - apply Z.ltb_lt in H. lia.
  - rewrite H. reflexivity.
Qed.

Lemma find_valid_insert (c : ascii) (s1 s2 : pystr) :
  skipped c = true ->
  forall num, binascii_find_valid (s1 ++ c :: s2) num = binascii_find_valid (s1 ++ s2) num.
Proof.
  intros H. induction s1 as [|x s1 IH]; intros num.
  - apply find_valid_skip. exact H.
  - cbn [app binascii_find_valid]. rewrite !IH. reflexivity.
Qed.

Lemma a2b_loop_skip (c : ascii) (r : pystr) (leftbits leftchar quad_pos : Z) (out : pystr) :
  skipped c = true ->
  a2b_loop (c :: r) leftbits leftchar quad_pos out
  = a2b_loop r leftbits leftchar quad_pos out.
Proof.
  intros H. cbn [a2b_loop]. rewrite (skipped_not_pad c H).
  unfold skipped in H.
  destruct (127 <? ord c); [reflexivity |]. simpl in H. rewrite H.
  destruct (_ || _); reflexivity.
Qed.

(** A skipped character anywhere in the input does not change what the
    loop computes. *)
Lemma a2b_loop_insert (c : ascii) (s1 s2 : pystr) :
  skipped c = true ->
  forall leftbits leftchar quad_pos out,
    a2b_loop (s1 ++ c :: s2) leftbits leftchar quad_pos out
    = a2b_loop (s1 ++ s2) leftbits leftchar quad_pos out.
Proof.
  intros H. induction s1 as [|x s1 IH]; intros leftbits leftchar quad_pos out.
  - apply a2b_loop_skip. exact H.
  - cbn [app a2b_loop].
    change (x :: s1 ++ c :: s2) with ((x :: s1) ++ c :: s2).
    rewrite (find_valid_insert c (x :: s1) s2 H). cbn [app].
    rewrite !IH. reflexivity.
Qed.

(** The bits left over after [n] characters of the alphabet, by the
    position in the quad the loop started from. *)
Lemma a2b_loop_leftbits (s : pystr) :
  Forall (fun c => in_alphabet c = true) s ->
  forall leftchar out,
    fst (a2b_loop s 0 leftchar 0 out) = nth (length s mod 4) [0; 6; 4; 2] 0
    /\ fst (a2b_loop s 6 leftchar 1 out) = nth ((1 + length s) mod 4) [0; 6; 4; 2] 0
    /\ fst (a2b_loop s 4 leftchar 2 out) = nth ((2 + length s) mod 4) [0; 6; 4; 2] 0
    /\ fst (a2b_loop s 2 leftchar 3 out) = nth ((3 + length s) mod 4) [0; 6; 4; 2] 0.
Proof.
  induction 1 as [|c r Hc _ IH]; intros leftchar out.
  - repeat split.
  - rewrite (a2b_loop_pos0 _ _ _ _ Hc), (a2b_loop_pos1 _ _ _ _ Hc),
      (a2b_loop_pos2 _ _ _ _ Hc), (a2b_loop_pos3 _ _ _ _ Hc).
    cbn [length].
    replace (S (length r) mod 4)%nat with ((1 + length r) mod 4)%nat by reflexivity.
    replace ((1 + S (length r)) mod 4)%nat with ((2 + length r) mod 4)%nat
      by (f_equal; lia).
    replace ((2 + S (length r)) mod 4)%nat with ((3 + length r) mod 4)%nat
      by (f_equal; lia).
    replace ((3 + S (length r)) mod 4)%nat with (length r mod 4)%nat
      by (replace (3 + S (length r))%nat with (length r + 1 * 4)%nat by lia;
          symmetry; apply Nat.Div0.mod_add).
    repeat split; apply IH.
Qed.

End Base64Skipping.

(** X17.  Characters the decoder skips (CR, LF, the space, any character
    outside the alphabet or above 7 bits) may stand anywhere in the
    payload: [pre_parse_kinesis] returns what it returns without them. *)
Theorem payload_skipped_characters_are_ignored (w : world) (s1 s2 : pystr) (c : ascii) :
  Base64.skipped c = true ->
  snd (pre_parse_kinesis (kinesis_record (PyStr (s1 ++ c :: s2))) w)
  = snd (pre_parse_kinesis (kinesis_record (PyStr (s1 ++ s2))) w).
Proof.
  intros H.
  assert (Hrun : forall s, snd (pre_parse_kinesis (kinesis_record (PyStr s)) w)
                           = Base64.b64decode (PyStr s)) by reflexivity.
  rewrite !Hrun. unfold Base64.b64decode, Base64.a2b_base64.
  rewrite (a2b_loop_insert c s1 s2 H). reflexivity.
Qed.

Lemma payload_skipped_characters_are_ignored_witness :
  let w := demo_world [] [] in
  snd (pre_parse_kinesis (kinesis_record (PyStr (str "aGVs" ++ "010"%char :: str "bG8="))) w)
  = snd (pre_parse_kinesis (kinesis_record (PyStr (str "aGVs" ++ str "bG8="))) w).
Proof.
  intros w.
  apply (payload_skipped_characters_are_ignored w (str "aGVs") (str "bG8=") "010"%char).
  vm_compute. reflexivity.
Defined.

(** X18.  A payload made of characters of the alphabet only, without
    pad, is refused with [TypeError] exactly when its length is not a
    multiple of four. *)
Theorem unpadded_payload_needs_full_quads (w : world) (s : pystr) :
  Forall (fun c => Base64.in_alphabet c = true) s ->
  (snd (pre_parse_kinesis (kinesis_record (PyStr s)) w) = inl TypeError
   <-> (length s mod 4 <> 0)%nat).
Proof.
  intros H.
  assert (Hrun : snd (pre_parse_kinesis (kinesis_record (PyStr s)) w)
                 = Base64.b64decode (PyStr s)) by reflexivity.
  rewrite Hrun. unfold Base64.b64decode, Base64.a2b_base64.
  destruct (a2b_loop_leftbits s H 0 []) as [H0 _].
  destruct (Base64.a2b_loop s 0 0 0 []) as [leftbits bin_data]. cbn [fst] in H0. subst leftbits.
  pose proof (Nat.mod_upper_bound (length s) 4 ltac:(lia)) as Hb.
  destruct (length s mod 4)%nat as [|[|[|[|n]]]] eqn:E; simpl; try lia;
    split; intros; try discriminate; try lia; try reflexivity.
Qed.

Lemma unpadded_payload_needs_full_quads_witness :
  let w := demo_world [] [] in
  snd (pre_parse_kinesis (kinesis_record (PyStr (str "aGVsbG8"))) w) = inl TypeError
  <-> (length (str "aGVsbG8") mod 4 <> 0)%nat.
Proof.
  intros w.
  apply (unpadded_payload_needs_full_quads w (str "aGVsbG8")).
  repeat constructor.
Defined.

(** X19.  A bucket name whose escapes do not decode to UTF-8 makes
    [pre_parse_s3] raise [UnicodeDecodeError] before the key and the
    size are looked at, and nothing is logged or fetched. *)
Theorem undecodable_bucket_name_fails (rt : runtime) (raw_record : pyval) (w : world)
    (region : pyval) (name : pystr) :
  Py.getitem raw_record (str "awsRegion") = inr region ->
  Py.getpath raw_record [str "s3"; str "bucket"; str "name"] = inr (PyStr name) ->
  Urllib.utf8_valid (Urllib.url_unescape name) = false ->
  pre_parse_s3 rt raw_record w = (w, inl UnicodeDecodeError).
Proof.
  intros Hregion Hname Hbad. apply pre_parse_s3_reference_error.
  unfold s3_reference, bind, lift.
  rewrite Hregion, Hname. unfold unquote.
  rewrite unquote_url_unescape. unfold Urllib.decode_utf8. rewrite Hbad. reflexivity.
Qed.

Lemma undecodable_bucket_name_fails_witness :
  let rt := demo_runtime (str "body") in
  let w := demo_world [] [str "abc123"] in
  let raw_record :=
    PyDict [(str "awsRegion", PyStr (str "us-east-1"));
            (str "s3", PyDict [(str "bucket", PyDict [(str "name", PyStr (str "b%FFc"))])])] in
  pre_parse_s3 rt raw_record w = (w, inl UnicodeDecodeError).
Proof.
  intros rt w raw_record.
  apply (undecodable_bucket_name_fails rt raw_record w (PyStr (str "us-east-1")) (str "b%FFc")).
  - vm_compute. reflexivity.
  - vm_compute. reflexivity.
  - vm_compute. reflexivity.
Defined.

Section NoLineFeed.

Variable rt : runtime.

Lemma split_by_line_no_LF (data : pystr) :
  Forall (fun l => ~ In "010"%char l) (Spec.split_by_line data).
Proof.
  induction data as [|c t IH]; simpl; [constructor |].
  destruct (Ascii.eqb c "010") eqn:Hc.
  - constructor; [intros [] | exact IH].
  - apply Ascii.eqb_neq in Hc.
    destruct (Spec.split_by_line t) as [|l ls].
    + constructor; [| constructor]. intros [H | []]. congruence.
    + inversion IH as [|? ? Hl Hls]; subst. constructor; [| exact Hls].
      intros [H | H]; [congruence | exact (Hl H)].
Qed.

(** What is kept of a raw line of a file has no LF. *)
Lemma rstrip_readlines_no_LF (data : pystr) :
  Forall (fun raw => ~ In "010"%char (Py.rstrip raw)) (Py.readlines data).
Proof.
  pose proof (readlines_split_by_line data) as H2.
  pose proof (split_by_line_no_LF data) as HF.
  induction H2 as [|raw l raws ls H1 H2 IH]; [constructor |].
  inversion HF as [|? ? Hl Hls]; subst.
  constructor; [| apply IH; exact Hls].
  assert (E : Py.rstrip raw = Py.rstrip l)
    by (destruct H1 as [-> | ->]; [reflexivity | apply rstrip_cons_LF]).
  rewrite E. intros Hin. apply Hl.
  destruct (rstrip_split l) as [ws [Hws _]]. rewrite Hws.
  apply in_or_app. left. exact Hin.
Qed.

(** The raw lines of a file object are lines of some data. *)
Lemma open_lines_readlines (path data : pystr) :
  exists d, forall l, In l (fst (open_lines rt path data)) -> In l (Py.readlines d).
Proof.
  unfold open_lines. destruct (OsPath.splitext path) as [root ext].
  destruct (Py.eqb ext (str ".gz")).
  - unfold gzip_lines. destruct (gunzip rt data) as [d [e|]]; exists d; simpl.
    + intros l Hl. apply list_elem_of_In in Hl. apply list_elem_of_filter in Hl.
      apply list_elem_of_In. tauto.
    + auto.
  - exists data. auto.
Qed.

End NoLineFeed.

(** X20.  No line handed to the consumer contains a line feed, for a
    plain file and for a gzip one, whether the read ends well or not. *)
Theorem yielded_lines_have_no_line_feed (rt : runtime) (w : world)
    (path data : pystr) (lines : list pystr) (failure : option exn) (fuel : nat) :
  fs w !! path = Some data ->
  open_lines rt path data = (lines, failure) ->
  (length lines < fuel)%nat ->
  Forall (fun p => ~ In "010"%char (snd p))
    (yielded (consume fuel rt (GenCreated path) w)).
Proof.
  intros Hfs Hopen Hfuel. apply Forall_forall. intros [num line] Hin. cbn [snd].
  rewrite (consume_created rt path data lines failure fuel w Hfs Hopen Hfuel) in Hin.
  simpl in Hin.
  apply list_elem_of_lookup in Hin. destruct Hin as [i Hi].
  apply enumerate_lookup in Hi. destruct Hi as [_ Hi].
  rewrite list_lookup_fmap in Hi.
  destruct (lines !! i) as [raw|] eqn:Hraw; [| discriminate].
  simpl in Hi. injection Hi as <-.
  destruct (open_lines_readlines rt path data) as [d Hd].
  rewrite Hopen in Hd. simpl in Hd.
  pose proof (rstrip_readlines_no_LF d) as HF. rewrite Forall_forall in HF.
  apply HF. apply list_elem_of_In. apply Hd.
  apply list_elem_of_In. eapply list_elem_of_lookup_2. exact Hraw.
Qed.

Lemma yielded_lines_have_no_line_feed_witness :
  let rt := demo_runtime [] in
  let path := str "/tmp/tmpabc123logs-app.log" in
  let w := demo_world [(path, demo_text ["one "; "two"])] [] in
  Forall (fun p => ~ In "010"%char (snd p))
    (yielded (consume 3 rt (GenCreated path) w)).
Proof.
  intros rt path w.
  apply (yielded_lines_have_no_line_feed rt w path (demo_text ["one "; "two"])
           (Py.readlines (demo_text ["one "; "two"])) None 3).
  - vm_compute. reflexivity.
  - vm_compute. reflexivity.
  - vm_compute. lia.
Defined.
